(** * cassandra_connector: connection manager and secure-bundle resolution

    A shallow embedding of [cassandra_connector/CassandraConnector.py]:
    the Python string primitives the module relies on, a store of
    dictionaries and connector objects (so that aliasing between a
    caller's configuration and the connector is visible), the external
    collaborators (driver, HTTP, clock, filesystem) as an interface, and
    the two classes [CassandraConnectionsManager] and [CassandraConnector]
    written in an exception-and-state monad. *)

From Stdlib Require Import ZArith Ascii.
From stdpp Require Import base gmap strings list fin_maps.

Local Open Scope Z_scope.

(** ** Python string primitives *)

Module PyStr.

Fixpoint startswith (pre s : string) : bool :=
  match pre, s with
  | EmptyString, _ => true
  | String _ _, EmptyString => false
  | String a pre', String b s' => Ascii.eqb a b && startswith pre' s'
  end.

(** [sub in s] *)
Fixpoint contains (sub s : string) : bool :=
  startswith sub s
  || match s with
     | EmptyString => false
     | String _ s' => contains sub s'
     end.

Fixpoint contains_char (c : ascii) (s : string) : bool :=
  match s with
  | EmptyString => false
  | String a s' => Ascii.eqb a c || contains_char c s'
  end.

(** [s.split(sep)] for a non-empty [sep]: the pieces between the
    non-overlapping occurrences of [sep], found left to right.  [skip]
    counts the characters of a matched separator still to be dropped. *)
Fixpoint split_go (sep : string) (skip : nat) (s : string) : list string :=
  match s with
  | EmptyString => [EmptyString]
  | String c s' =>
      match skip with
      | S k => split_go sep k s'
      | O =>
          if startswith sep s
          then EmptyString :: split_go sep (String.length sep - 1) s'
          else match split_go sep 0 s' with
               | h :: t => String c h :: t
               | [] => [String c EmptyString]
               end
      end
  end.

Definition split (sep s : string) : list string := split_go sep 0 s.

(** [sep.join(l)] *)
Fixpoint join (sep : string) (l : list string) : string :=
  match l with
  | [] => EmptyString
  | [x] => x
  | x :: rest => x +:+ sep +:+ join sep rest
  end.

(** [s.replace(old, new)] for a non-empty [old]. *)
Definition replace (old new s : string) : string := join new (split old s).

(** [s.rsplit(c, 1)] followed by unpacking into two names: [None] stands
    for the [ValueError] of unpacking a one-element list. *)
Fixpoint rsplit1 (c : ascii) (s : string) : option (string * string) :=
  match s with
  | EmptyString => None
  | String a s' =>
      match rsplit1 c s' with
      | Some (m, k) => Some (String a m, k)
      | None => if Ascii.eqb a c then Some (EmptyString, s') else None
      end
  end.

Fixpoint endswith_char (c : ascii) (s : string) : bool :=
  match s with
  | EmptyString => false
  | String a EmptyString => Ascii.eqb a c
  | String _ s' => endswith_char c s'
  end.

(** [os.path.join(a, b)] on a POSIX system, two components. *)
Definition path_join (a b : string) : string :=
  if startswith "/" b then b
  else if bool_decide (a = EmptyString) || endswith_char "/" a then a +:+ b
  else a +:+ "/" +:+ b.

End PyStr.

(** ** Values, objects and the store *)

(** Objects that can be shared (dictionaries, connectors) live in a store
    and are named by their location; [VRef] is a Python reference.  Two
    references are the same object exactly when their locations are
    equal. *)
Abbreviation loc := nat (only parsing).

(** Opaque handles of the driver: clusters, sessions, auth providers. *)
Abbreviation handle := nat (only parsing).

Inductive value :=
  | VNone
  | VBool (b : bool)
  | VInt (z : Z)
  | VStr (s : string)
  | VRef (l : loc).

Global Instance value_eq_dec : EqDecision value.
Proof. solve_decision. Defined.

(** The state of a [CassandraConnector] instance. *)
Record connector := mkConnector {
  _connection_args : gmap string value;
  _connectionType : string;
  _cluster : option handle;
  _session : option handle
}.

Inductive obj :=
  | ODict (d : gmap string value)
  | OConnector (c : connector).

(** A regular file of the filesystem: modification time in seconds since
    the epoch, and its bytes. *)
Record file := mkFile { mtime : Z; content : string }.

(** What the program does that can be seen from outside. *)
Inductive event :=
  | EPrint (line : string)
  | EPost (url : string) (headers : list (string * string))
  | EGet (url : string)
  | EImport (module_path class_name : string)
  | ENewAuthProvider (cls : handle) (kwargs : gmap string value)
  | ECluster (auth_provider : option handle) (kwargs : gmap string value)
  | EConnect (cluster : handle).

Record World := mkWorld {
  heap : gmap loc obj;
  fs : gmap string file;
  trace : list event
}.

(** ** Exceptions *)

(** The classes of exception the module meets.  All of them derive from
    [Exception]: [json.JSONDecodeError] is the one [json.loads] raises
    for text that is not JSON (a subclass of [ValueError], kept apart
    because line 326 catches it by name), [OtherError] is any other
    [Exception] subclass.  What derives from [BaseException] only
    ([KeyboardInterrupt], [SystemExit]) is delivered from outside the
    program and is not modelled. *)
Inductive exn_kind :=
  | ValueError | KeyError | TypeError | AttributeError | HTTPError
  | JSONDecodeError | OtherError.

(** An exception: its class and [str(e)]. *)
Inductive exn := Exn (kind : exn_kind) (msg : string).

Definition exn_str (e : exn) : string := let 'Exn _ m := e in m.

Inductive result (A : Type) :=
  | Ok (a : A)
  | Raise (e : exn).
Arguments Ok {A} a.
Arguments Raise {A} e.

(** An HTTP response as [requests] returns it; [resp_json = None] is a
    body that [response.json()] cannot decode.  The discovery service
    answers with a JSON array of objects with string fields. *)
Record response := mkResponse {
  status_code : Z;
  resp_json : option (list (gmap string string));
  resp_content : string
}.

(** ** External collaborators

    Everything the module calls but does not define.  Each collaborator
    sees the current world, so its answer may change from one call to the
    next. *)
Record Externals := mkExternals {
  time_time : World -> Z;
  gettempdir : World -> string;
  (** [str(v)] for a value that is not already a string *)
  py_str : World -> value -> string;
  (** [urlparse(url).netloc] *)
  urlparse_netloc : string -> result string;
  requests_post : World -> string -> list (string * string) -> result response;
  requests_get : World -> string -> result response;
  (** [getattr(__import__(module_path, fromlist=[class_name]), class_name)] *)
  import_class : World -> string -> string -> result handle;
  (** calling the imported class with keyword arguments *)
  new_auth_provider : World -> handle -> gmap string value -> result handle;
  (** [Cluster(auth_provider=..., **kwargs)] *)
  Cluster : World -> option handle -> gmap string value -> result handle;
  (** [cluster.connect()] *)
  Cluster_connect : World -> handle -> result handle
}.

(** ** The monad of Python statements: state and exceptions *)

Definition M (A : Type) : Type := World -> result A * World.

Global Instance M_ret : MRet M := fun A a w => (Ok a, w).
Global Instance M_bind : MBind M := fun A B f m w =>
  match m w with
  | (Ok a, w') => f a w'
  | (Raise e, w') => (Raise e, w')
  end.

Definition raise {A} (k : exn_kind) (msg : string) : M A :=
  fun w => (Raise (Exn k msg), w).

Definition get_world : M World := fun w => (Ok w, w).

Definition emit (e : event) : M unit :=
  fun w => (Ok tt, mkWorld (heap w) (fs w) (trace w ++ [e])).

(** Calling a collaborator: the call is recorded, then it answers. *)
Definition call {A} (e : event) (f : World -> result A) : M A :=
  fun w => let w' := mkWorld (heap w) (fs w) (trace w ++ [e]) in (f w', w').

Definition alloc (o : obj) : M loc :=
  fun w => let l := fresh (dom (heap w)) in
           (Ok l, mkWorld (<[l := o]> (heap w)) (fs w) (trace w)).

Definition read_dict (l : loc) : M (gmap string value) :=
  fun w => match heap w !! l with
           | Some (ODict d) => (Ok d, w)
           | _ => (Raise (Exn TypeError "object is not a mapping"), w)
           end.

(** [d[k] = v] on the dictionary at [l] *)
Definition setitem (l : loc) (k : string) (v : value) : M unit :=
  fun w => match heap w !! l with
           | Some (ODict d) =>
               (Ok tt, mkWorld (<[l := ODict (<[k := v]> d)]> (heap w)) (fs w) (trace w))
           | _ => (Raise (Exn TypeError "object does not support item assignment"), w)
           end.

(** [d[k]] *)
Definition getitem {V} (d : gmap string V) (k : string) : M V :=
  match d !! k with
  | Some v => mret v
  | None => raise KeyError ("'" +:+ k +:+ "'")
  end.

(** Python truth value *)
Definition truthy (h : gmap loc obj) (v : value) : bool :=
  match v with
  | VNone => false
  | VBool b => b
  | VInt z => negb (z =? 0)
  | VStr s => negb (bool_decide (s = EmptyString))
  | VRef l => match h !! l with
              | Some (ODict d) => negb (bool_decide (d = ∅))
              | _ => true
              end
  end.

(** [d.get(k)] *)
Definition dict_get (d : gmap string value) (k : string) : value :=
  default VNone (d !! k).

(** [k in d and d[k]] as a condition *)
Definition has_truthy (h : gmap loc obj) (d : gmap string value) (k : string) : bool :=
  match d !! k with
  | Some v => truthy h v
  | None => false
  end.

(** [x or y] *)
Definition py_or (h : gmap loc obj) (x y : value) : value :=
  if truthy h x then x else y.

(** ** [CassandraConnector] *)

Section Connector.

Variable ext : Externals.

(** A value inside an f-string *)
Definition shown (w : World) (v : value) : string :=
  match v with
  | VStr s => s
  | _ => py_str ext w v
  end.

Definition format_value (v : value) : M string :=
  fun w => (Ok (shown w v), w).

(** [response.raise_for_status()] *)
Definition raise_for_status (r : response) : M unit :=
  if (400 <=? status_code r) && (status_code r <? 600)
  then raise HTTPError "HTTP error status"
  else mret tt.

(** [response.json()] *)
Definition json (r : response) : M (list (gmap string string)) :=
  match resp_json r with
  | Some data => mret data
  | None => raise ValueError "response body is not JSON"
  end.

(** [bundle['region'] == regionName] *)
Definition region_eq (region : string) (regionName : value) : bool :=
  match regionName with
  | VStr s => bool_decide (region = s)
  | _ => false
  end.

(** [next((bundle for bundle in data if bundle['region'] == regionName), None)] *)
Fixpoint next_regional (data : list (gmap string string)) (regionName : value)
  : M (option (gmap string string)) :=
  match data with
  | [] => mret None
  | bundle :: rest =>
      region ← getitem bundle "region";
      if region_eq region regionName then mret (Some bundle)
      else next_regional rest regionName
  end.

Definition default_bundle_url_template : string :=
  "https://api.astra.datastax.com/v2/databases/{database_id}/secureBundleURL?all=true".

(** Lines 298-312: the choice of the download URL in the discovery
    answer [data], for the dictionary [d] of [astra_args]. *)
Definition select_download_url (d : gmap string value)
    (data : list (gmap string string)) : M string :=
  match data with
  | [] => raise ValueError "Failed to get secure bundle URLs."
  | first :: _ =>
      download_url ← getitem first "downloadURL";
      w ← get_world;
      if has_truthy (heap w) d "regionName" then
        regionName ← getitem d "regionName";
        regional_bundle ← next_regional data regionName;
        match regional_bundle with
        | Some bundle =>
            if bool_decide (bundle = ∅)
            then
              shown_region ← format_value regionName;
              raise ValueError
                ("Specific bundle for region '" +:+ shown_region +:+ "' not found.")
            else getitem bundle "downloadURL"
        | None =>
            shown_region ← format_value regionName;
            raise ValueError
              ("Specific bundle for region '" +:+ shown_region +:+ "' not found.")
        end
      else mret download_url
  end.

Definition _get_secure_connect_bundle_url (astra_args : loc) : M string :=
  d ← read_dict astra_args;
  url_template ←
    match default (VStr default_bundle_url_template) (d !! "bundleUrlTemplate") with
    | VStr t => mret t
    | _ => raise AttributeError "object has no attribute 'replace'"
    end;
  database_id ← getitem d "datacenterID";
  url ←
    match database_id with
    | VStr i => mret (PyStr.replace "{database_id}" i url_template)
    | _ => raise TypeError "replace() argument 2 must be str"
    end;
  token ← getitem d "token";
  bearer ← format_value token;
  let headers := [("Authorization", "Bearer " +:+ bearer);
                  ("Content-Type", "application/json")] in
  response ← call (EPost url headers) (fun w => requests_post ext w url headers);
  raise_for_status response;;
  data ← json response;
  select_download_url d data.

(** [os.makedirs(scb_dir, exist_ok=True)]: directories are not part of
    the filesystem model, and creating one is taken to succeed. *)
Definition makedirs (path : string) : M unit := mret tt.

(** [with open(path, 'wb') as f: f.write(data)]: the file is replaced and
    stamped with the current time.  Opening and writing are taken to
    succeed, as one step; a disk that fails between the two, leaving the
    file empty, is not modelled. *)
Definition write_file (path data : string) : M unit :=
  fun w => (Ok tt, mkWorld (heap w) (<[path := mkFile (time_time ext w) data]> (fs w)) (trace w)).

Definition astra_suffix : string := ".apps.astra.datastax.com".

(** Lines 239-244: the two identifiers read off the endpoint's host. *)
Definition parse_netloc (netloc : string) : string * string :=
  let hostname_without_suffix := hd EmptyString (PyStr.split astra_suffix netloc) in
  let parts := PyStr.split "-" hostname_without_suffix in
  let datacenterID := PyStr.join "-" (take 5 parts) in
  let regionName := PyStr.join "-" (drop 5 parts) in
  (datacenterID, regionName).

(** [time.time() - os.path.getmtime(scb_path) > 360 * 24 * 60 * 60] *)
Definition max_age : Z := 360 * 24 * 60 * 60.

Definition must_download (scb_path : string) : M bool :=
  fun w => match fs w !! scb_path with
           | None => (Ok true, w)
           | Some f => (Ok (time_time ext w - mtime f >? max_age), w)
           end.

(** [urlparse(endpoint).netloc] *)
Definition urlparse_netloc_of (endpoint : value) : M string :=
  match endpoint with
  | VStr url => fun w => (urlparse_netloc ext url, w)
  | _ => raise TypeError "urlparse() argument must be str"
  end.

(** Lines 234-250: make sure the dictionary carries [datacenterID]
    (and [regionName]), reading them off the endpoint when there is
    one. *)
Definition resolve_identifiers (astra_args : loc) : M unit :=
  d ← read_dict astra_args;
  w ← get_world;
  if has_truthy (heap w) d "endpoint" then
    endpoint ← getitem d "endpoint";
    netloc ← urlparse_netloc_of endpoint;
    let '(datacenterID, regionName) := parse_netloc netloc in
    setitem astra_args "datacenterID"
      (py_or (heap w) (dict_get d "datacenterID") (VStr datacenterID));;
    d ← read_dict astra_args;
    w ← get_world;
    setitem astra_args "regionName"
      (py_or (heap w) (dict_get d "regionName") (VStr regionName))
  else if negb (bool_decide (is_Some (d !! "datacenterID")))
          || negb (truthy (heap w) (dict_get d "datacenterID"))
  then raise ValueError "Astra endpoint or datacenterID must be provided in args."
  else mret tt.

(** Lines 252-260: the place of the bundle in the cache directory. *)
Definition scb_cache_path (astra_args : loc) : M string :=
  w ← get_world;
  let scb_dir := PyStr.path_join (gettempdir ext w) "cassandra-astra" in
  makedirs scb_dir;;
  d ← read_dict astra_args;
  datacenterID ← getitem d "datacenterID";
  shown_id ← format_value datacenterID;
  let scb_filename := "astra-secure-connect-" +:+ shown_id in
  w ← get_world;
  scb_filename ←
    (if has_truthy (heap w) d "regionName" then
       regionName ← getitem d "regionName";
       shown_region ← format_value regionName;
       mret (scb_filename +:+ "-" +:+ shown_region)
     else mret scb_filename);
  let scb_filename := scb_filename +:+ ".zip" in
  mret (PyStr.path_join scb_dir scb_filename).

(** Lines 263-268: discovery, download, and the file written. *)
Definition download_bundle (astra_args : loc) (scb_path : string) : M unit :=
  download_url ← _get_secure_connect_bundle_url astra_args;
  response ← call (EGet download_url) (fun w => requests_get ext w download_url);
  raise_for_status response;;
  write_file scb_path (resp_content response).

Definition _get_or_download_secure_connect_bundle (astra_args : loc) : M value :=
  d ← read_dict astra_args;
  w ← get_world;
  if has_truthy (heap w) d "scb" then getitem d "scb"
  else
    resolve_identifiers astra_args;;
    scb_path ← scb_cache_path astra_args;
    stale ← must_download scb_path;
    (if stale : bool then download_bundle astra_args scb_path else mret tt);;
    mret (VStr scb_path).

(** [self._connection_args.pop(k, default)]: the value and the
    dictionary without [k] *)
Definition dict_pop (d : gmap string value) (k : string)
  : option value * gmap string value :=
  (d !! k, delete k d).

(** [**v] at a call: the value must be a mapping. *)
Definition unpack_kwargs (v : value) : M (gmap string value) :=
  match v with
  | VRef l => read_dict l
  | _ => raise TypeError "argument after ** must be a mapping"
  end.

Definition _setup_cassandra_connection (self : connector) : M connector :=
  let '(popped_class, args) := dict_pop (_connection_args self) "authProviderClass" in
  let auth_provider_class := default VNone popped_class in
  let '(auth_provider_args, args) := dict_pop args "authProviderArgs" in
  let self := mkConnector args (_connectionType self) (_cluster self) (_session self) in
  w ← get_world;
  auth_provider ←
    (if truthy (heap w) auth_provider_class then
       name ←
         match auth_provider_class with
         | VStr s => mret s
         | _ => raise AttributeError "object has no attribute 'rsplit'"
         end;
       '(module_path, class_name) ←
         match PyStr.rsplit1 "." name with
         | Some p => mret p
         | None => raise ValueError "not enough values to unpack (expected 2, got 1)"
         end;
       cls ← call (EImport module_path class_name)
                  (fun w => import_class ext w module_path class_name);
       kwargs ←
         match auth_provider_args with
         | None => mret ∅
         | Some v => unpack_kwargs v
         end;
       provider ← call (ENewAuthProvider cls kwargs)
                       (fun w => new_auth_provider ext w cls kwargs);
       mret (Some provider)
     else mret None);
  (if bool_decide (is_Some (args !! "auth_provider"))
   then raise TypeError "got multiple values for keyword argument 'auth_provider'"
   else mret tt);;
  cluster ← call (ECluster auth_provider args) (fun w => Cluster ext w auth_provider args);
  let self := mkConnector args (_connectionType self) (Some cluster) (_session self) in
  session ← call (EConnect cluster) (fun w => Cluster_connect ext w cluster);
  mret (mkConnector args (_connectionType self) (_cluster self) (Some session)).

(** Lines 212-217: the connection arguments are replaced by the ones
    made up for the bundle at [scb_path], and the cluster is set up
    from them. *)
Definition connect_with_bundle (self : connector) (astra_args : loc)
    (scb_path : value) : M connector :=
  cloud ← alloc (ODict {[ "secure_connect_bundle" := scb_path ]});
  d ← read_dict astra_args;
  token ← getitem d "token";
  auth_args ← alloc (ODict (<[ "username" := VStr "token" ]>
                             {[ "password" := token ]}));
  let connection_args : gmap string value :=
    <[ "cloud" := VRef cloud ]>
    (<[ "authProviderClass" := VStr "cassandra.auth.PlainTextAuthProvider" ]>
     {[ "authProviderArgs" := VRef auth_args ]}) in
  _setup_cassandra_connection
    (mkConnector connection_args (_connectionType self) (_cluster self) (_session self)).

(** Lines 210-217.  [astra_args] is a dictionary in every documented
    use.  A string gets as far as the tests of line 231-249, where [in]
    is the substring test and indexing by a key is a [TypeError]; with
    none of the three keys inside the string, line 250 is reached.  A
    number or a boolean fails at the first [in]. *)
Definition _setup_astra_connection (self : connector) : M connector :=
  astra_args ← getitem (_connection_args self) "astra";
  match astra_args with
  | VRef a =>
      scb_path ← _get_or_download_secure_connect_bundle a;
      connect_with_bundle self a scb_path
  | VStr s =>
      if PyStr.contains "scb" s || PyStr.contains "endpoint" s
         || PyStr.contains "datacenterID" s
      then raise TypeError "string indices must be integers"
      else raise ValueError "Astra endpoint or datacenterID must be provided in args."
  | _ => raise TypeError "argument is not iterable"
  end.

(** [CassandraConnector.__init__] with its keyword arguments collected
    in [connection_args].  The keyword dictionary is
    built afresh by the call, so it is the connector's own; the values
    in it are the caller's references.  The new object is entered in the
    store when [__init__] returns. *)
Definition CassandraConnector (connection_args : gmap string value) : M loc :=
  let self := mkConnector connection_args EmptyString None None in
  w ← get_world;
  self ←
    (if truthy (heap w) (dict_get connection_args "astra") then
       _setup_astra_connection
         (mkConnector (_connection_args self) "astra" (_cluster self) (_session self))
     else
       _setup_cassandra_connection
         (mkConnector (_connection_args self) "cassandra" (_cluster self) (_session self)));
  alloc (OConnector self).

Definition read_connector (l : loc) : M connector :=
  fun w => match heap w !! l with
           | Some (OConnector c) => (Ok c, w)
           | _ => (Raise (Exn AttributeError "object is not a CassandraConnector"), w)
           end.

(** The getter that [@property] wraps, lines 154-167. *)
Definition session_fget (self : loc) (new : bool) : M (option handle) :=
  c ← read_connector self;
  if new then
    match _cluster c with
    | Some cluster =>
        s ← call (EConnect cluster) (fun w => Cluster_connect ext w cluster);
        mret (Some s)
    | None => raise AttributeError "'NoneType' object has no attribute 'connect'"
    end
  else mret (_session c).

(** [connector.session]: a property is read by attribute access, which
    calls the getter with the instance alone, so [new] takes its
    default. *)
Definition session (self : loc) : M (option handle) := session_fget self false.

(** [connector.cluster] *)
Definition cluster (self : loc) : M (option handle) :=
  c ← read_connector self;
  mret (_cluster c).

End Connector.

Arguments parse_netloc : simpl never.

(** ** [CassandraConnectionsManager] *)

(** The two dictionaries of the manager.  Both hold references: to the
    stored keyword dictionaries and to the connector objects. *)
Record manager := mkManager {
  _connection_params : gmap string loc;
  _connections : gmap string loc
}.

(** [print(line)]: the line is recorded; writing to standard output is
    taken to succeed. *)
Definition print (line : string) (w : World) : World :=
  mkWorld (heap w) (fs w) (trace w ++ [EPrint line]).

Section Manager.

Variable ext : Externals.

(** The process environment and [json.loads] restricted to what
    [__init__] needs: [json_loads] enters the parsed object in the store
    and answers with its location, or raises. *)
Variable getenv : string -> option string.
Variable json_loads : string -> M loc.

(** Lines 324-329: [except json.JSONDecodeError as e] catches that class
    alone; any other exception of [json.loads] goes through. *)
Definition _parse_connection_args_json (conn_args_str : string) : M loc :=
  fun w => match json_loads conn_args_str w with
           | (Ok l, w') => (Ok l, w')
           | (Raise (Exn JSONDecodeError msg), w') =>
               (Raise (Exn ValueError ("Error parsing connection arguments: " +:+ msg)), w')
           | (Raise e, w') => (Raise e, w')
           end.

(** [os.getenv(k)] as a Python value *)
Definition getenv_value (k : string) : value :=
  match getenv k with
  | Some s => VStr s
  | None => VNone
  end.

Definition manager_init : M manager :=
  let self := mkManager ∅ ∅ in
  w ← get_world;
  self ←
    (if truthy (heap w) (getenv_value "CASSANDRA_CONNECTION") then
       p ← _parse_connection_args_json (default EmptyString (getenv "CASSANDRA_CONNECTION"));
       mret (mkManager (<[ "env_cassandra" := p ]> (_connection_params self))
                       (_connections self))
     else mret self);
  let astra_token := getenv_value "ASTRA_DB_APPLICATION_TOKEN" in
  let astra_endpoint := getenv_value "ASTRA_DB_API_ENDPOINT" in
  let astra_db_id := getenv_value "ASTRA_DB_DATABASE_ID" in
  let astra_db_region := getenv_value "ASTRA_DB_REGION" in
  let astra_scb := getenv_value "ASTRA_DB_SECURE_BUNDLE_PATH" in
  w ← get_world;
  if truthy (heap w) astra_token then
    astra ← alloc (ODict (<[ "token" := astra_token ]>
                          (<[ "endpoint" := astra_endpoint ]>
                           (<[ "datacenterID" := astra_db_id ]>
                            (<[ "regionName" := astra_db_region ]>
                             {[ "scb" := astra_scb ]})))));
    p ← alloc (ODict {[ "astra" := VRef astra ]});
    mret (mkManager (<[ "env_astra" := p ]> (_connection_params self))
                    (_connections self))
  else mret self.

Definition msg_initialized (db_key : string) : string :=
  "Connection for '" +:+ db_key +:+ "' initialized successfully.".
Definition msg_failed (db_key : string) : string :=
  "Failed to setup connection for '" +:+ db_key +:+ "'".
Definition msg_not_initialized (db_key : string) : string :=
  "Connection for '" +:+ db_key +:+ "' could not be initialized.".
Definition msg_not_configured (db_key : string) : string :=
  "Connection parameters for '" +:+ db_key +:+ "' not configured.".

(** Line 73-74: the keyword dictionary of this call is kept under
    [db_key] when the key has no parameters yet and some were given. *)
Definition store_params (self : manager) (db_key : string)
    (connection_args : gmap string value) (w : World) : manager * World :=
  if bool_decide (_connection_params self !! db_key = None)
     && negb (bool_decide (connection_args = ∅))
  then
    match alloc (ODict connection_args) w with
    | (Ok p, w') =>
        (mkManager (<[ db_key := p ]> (_connection_params self)) (_connections self), w')
    | (Raise _, w') => (self, w')
    end
  else (self, w).

(** [CassandraConnector( **params)]: the stored dictionary is unpacked
    into the keyword arguments of the constructor. *)
Definition construct (params : loc) : M loc :=
  kwargs ← read_dict params;
  CassandraConnector ext kwargs.

(** [get_connector(db_key, **connection_args)]: the result, the manager
    and the world afterwards.  An exception leaves the manager and the
    world as they were when it was raised. *)
Definition get_connector (self : manager) (db_key : string)
    (connection_args : gmap string value) (w : World)
  : result loc * manager * World :=
  match _connections self !! db_key with
  | Some c => (Ok c, self, w)
  | None =>
      let '(self, w) := store_params self db_key connection_args w in
      match _connection_params self !! db_key with
      | Some params =>
          match construct params w with
          | (Ok c, w) =>
              let self := mkManager (_connection_params self)
                                    (<[ db_key := c ]> (_connections self)) in
              (Ok c, self, print (msg_initialized db_key) w)
          | (Raise e, w) =>
              let w := print (msg_failed db_key) w in
              let w := print ("Error: " +:+ exn_str e) w in
              (Raise (Exn ValueError (msg_not_initialized db_key)), self, w)
          end
      | None => (Raise (Exn ValueError (msg_not_configured db_key)), self, w)
      end
  end.

End Manager.

(** ** Manager states reached by further calls *)

(** [later ext m m'] : [m'] is the manager [m] after any number of
    [get_connector] calls, each on any key, with any arguments, in any
    world. *)
Inductive later (ext : Externals) (m : manager) : manager -> Prop :=
  | later_refl : later ext m m
  | later_step m1 k args w r m2 w2 :
      later ext m m1 ->
      get_connector ext m1 k args w = (r, m2, w2) ->
      later ext m m2.

(** ** Auxiliary notions for the statements *)

(** The dictionary that a keyword dictionary names as its cloud
    sub-record, when it names one. *)
Definition cloud_record (kwargs : gmap string value) : option loc :=
  match kwargs !! "astra" with
  | Some (VRef a) => Some a
  | _ => None
  end.

(** A discovery entry as the service documents it: both fields there. *)
Definition well_formed_entry (b : gmap string string) : Prop :=
  is_Some (b !! "region") /\ is_Some (b !! "downloadURL").

(** The download URL that the discovery answer [data] holds for the
    dictionary [d]: that of the first entry when [d] names no region,
    and that of the first entry for the region when it names one. *)
Definition designated (h : gmap loc obj) (d : gmap string value)
    (data : list (gmap string string)) (u : string) : Prop :=
  (has_truthy h d "regionName" = false
   /\ exists first rest, data = first :: rest /\ first !! "downloadURL" = Some u)
  \/ (exists r pre b post,
        d !! "regionName" = Some (VStr r)
        /\ r <> EmptyString
        /\ data = pre ++ b :: post
        /\ Forall (fun b' => b' !! "region" <> Some r) pre
        /\ b !! "region" = Some r
        /\ b !! "downloadURL" = Some u).

Section Auxiliary.

Variable ext : Externals.

(** The identifiers that [resolve_identifiers] leaves in the dictionary
    for the host [netloc]: what the configuration gave, if it gave a
    true value, and else what the host says. *)
Definition with_identifiers (h : gmap loc obj) (d : gmap string value)
    (netloc : string) : gmap string value :=
  <[ "regionName" := py_or h (dict_get d "regionName") (VStr (parse_netloc netloc).2) ]>
  (<[ "datacenterID" := py_or h (dict_get d "datacenterID") (VStr (parse_netloc netloc).1) ]>
   d).

(** The configurations that get past lines 234-250, with the dictionary
    [d1] they leave there: no endpoint and a [datacenterID] given, which
    leaves the dictionary alone; or an endpoint that [urlparse] accepts,
    which leaves the identifiers of its host. *)
Definition identified (h : gmap loc obj) (d d1 : gmap string value) : Prop :=
  (has_truthy h d "endpoint" = false
   /\ has_truthy h d "datacenterID" = true
   /\ d1 = d)
  \/ (exists e netloc,
        d !! "endpoint" = Some (VStr e)
        /\ e <> EmptyString
        /\ urlparse_netloc ext e = Ok netloc
        /\ d1 = with_identifiers h d netloc).

(** What [_get_or_download_secure_connect_bundle] does once the
    identifiers are in place (lines 252-270). *)
Definition after_identifiers (a : loc) : M value :=
  scb_path ← scb_cache_path ext a;
  stale ← must_download ext scb_path;
  (if stale : bool then download_bundle ext a scb_path else mret tt);;
  mret (VStr scb_path).

End Auxiliary.

(** ** What a statement may change

    [steps P m]: whenever [m] runs, normally or with an exception, the
    world it leaves is related by [P] to the one it started in. *)

Definition steps {A} (P : relation World) (m : M A) : Prop :=
  forall w r w', m w = (r, w') -> P w w'.

Class AllowsTrace (P : relation World) :=
  allows_trace w t : P w (mkWorld (heap w) (fs w) t).
Class AllowsFs (P : relation World) :=
  allows_fs w f : P w (mkWorld (heap w) f (trace w)).
Class AllowsAlloc (P : relation World) :=
  allows_alloc w l o :
    heap w !! l = None -> P w (mkWorld (<[l := o]> (heap w)) (fs w) (trace w)).
(** Writing one of the two identifier keys of the dictionary at [a] *)
Class AllowsIds (P : relation World) (a : loc) :=
  allows_ids w d k v :
    heap w !! a = Some (ODict d) ->
    k = "datacenterID" \/ k = "regionName" ->
    P w (mkWorld (<[a := ODict (<[k := v]> d)]> (heap w)) (fs w) (trace w)).

(** The store is the same. *)
Definition same_heap : relation World := fun w w' => heap w' = heap w.

(** Nothing was printed or requested and no file was written. *)
Definition quiet : relation World :=
  fun w w' => trace w' = trace w /\ fs w' = fs w.

(** Two states of one object that differ at most in the identifier keys
    of a dictionary. *)
Definition same_but_ids (o o' : obj) : Prop :=
  match o, o' with
  | ODict d, ODict d' =>
      forall k, k <> "datacenterID" -> k <> "regionName" -> d' !! k = d !! k
  | _, _ => o' = o
  end.

(** Every object of the store is still there and unchanged, except that
    the dictionary at [a], if any, may have its identifier keys
    written. *)
Definition frame (a : option loc) : relation World :=
  fun w w' =>
    forall l o, heap w !! l = Some o ->
      exists o', heap w' !! l = Some o'
                 /\ (Some l <> a -> o' = o) /\ same_but_ids o o'.

(** ** A concrete environment for examples *)

Module Demo.

(** The host of an [https://host] URL without path (enough for the
    endpoints of the examples). *)
Definition netloc (url : string) : result string :=
  if PyStr.startswith "https://" url
  then Ok (String.substring 8 (String.length url - 8) url)
  else Ok EmptyString.

Definition discovery : list (gmap string string) :=
  [ <[ "region" := "us-east1" ]> {[ "downloadURL" := "https://bundles/east.zip" ]};
    <[ "region" := "eu-west1" ]> {[ "downloadURL" := "https://bundles/west.zip" ]} ].

(** A world-independent environment; [driver_up] says whether [Cluster]
    can be built. *)
Definition ext (driver_up : bool) : Externals := {|
  time_time := fun _ => 1700000000;
  gettempdir := fun _ => "/tmp";
  py_str := fun _ _ => "?";
  urlparse_netloc := netloc;
  requests_post := fun _ _ _ => Ok (mkResponse 200 (Some discovery) EmptyString);
  requests_get := fun _ _ => Ok (mkResponse 200 None "PK-bundle-bytes");
  import_class := fun _ _ _ => Ok 1%nat;
  new_auth_provider := fun _ _ _ => Ok 2%nat;
  Cluster := fun _ _ _ =>
    if driver_up then Ok 3%nat else Raise (Exn OtherError "NoHostAvailable");
  Cluster_connect := fun w _ => Ok (length (trace w))
|}.

Definition empty_world : World := mkWorld ∅ ∅ [].
Definition empty_manager : manager := mkManager ∅ ∅.

Definition direct_args : gmap string value :=
  {[ "contact_points" := VStr "127.0.0.1" ]}.

Definition endpoint : string :=
  "https://0a1b-2c3d-4e5f-6a7b-8c9d-eu-west1.apps.astra.datastax.com".

(** A cloud sub-record at location 0 with an endpoint and a token. *)
Definition cloud_dict : gmap string value :=
  <[ "endpoint" := VStr endpoint ]> {[ "token" := VStr "AstraCS:secret" ]}.
Definition cloud_world : World := mkWorld {[ 0%nat := ODict cloud_dict ]} ∅ [].

(** The caller's configuration at location 1, naming the cloud
    sub-record at location 0. *)
Definition astra_cfg : gmap string value := {[ "astra" := VRef 0%nat ]}.
Definition astra_world : World :=
  mkWorld (<[ 1%nat := ODict astra_cfg ]> {[ 0%nat := ODict cloud_dict ]}) ∅ [].

Definition bundle_path : string :=
  "/tmp/cassandra-astra/astra-secure-connect-0a1b-2c3d-4e5f-6a7b-8c9d-eu-west1.zip".

(** The same cloud sub-record with a bundle downloaded 100 days ago. *)
Definition cached_world : World :=
  mkWorld {[ 0%nat := ODict cloud_dict ]}
          {[ bundle_path := mkFile (1700000000 - 100 * 86400) "PK-old" ]} [].

(** A cloud sub-record that brings its own bundle. *)
Definition scb_dict : gmap string value :=
  <[ "scb" := VStr "/home/me/secure-connect.zip" ]> cloud_dict.
Definition scb_world : World := mkWorld {[ 0%nat := ODict scb_dict ]} ∅ [].

(** A connector object at location 0. *)
Definition a_connector : connector := mkConnector ∅ "cassandra" (Some 3%nat) (Some 7%nat).
Definition connector_world : World :=
  mkWorld {[ 0%nat := OConnector a_connector ]} ∅ [].

(** A first call that succeeds, and one that fails because the driver
    cannot reach the cluster. *)
Definition first_call : result loc * manager * World :=
  get_connector (ext true) empty_manager "k" direct_args empty_world.
Definition failed_call : result loc * manager * World :=
  get_connector (ext false) empty_manager "k" direct_args empty_world.

Definition other_args : gmap string value :=
  {[ "contact_points" := VStr "10.0.0.1" ]}.

End Demo.

(** ** Further relations between worlds *)

(** No file was written. *)
Definition same_fs : relation World := fun w w' => fs w' = fs w.

(** The events recorded since, all of them satisfying [ok]. *)
Definition emits (ok : event -> Prop) : relation World :=
  fun w w' => exists evs, trace w' = trace w ++ evs /\ Forall ok evs.

Class AllowsEvent (P : relation World) (ok : event -> Prop) :=
  allows_event w e : ok e -> P w (mkWorld (heap w) (fs w) (trace w ++ [e])).

(** An HTTP request *)
Definition is_http (e : event) : Prop :=
  match e with
  | EPost _ _ | EGet _ => True
  | _ => False
  end.

(** A [Cluster(...)] call whose keyword arguments still carry one of the
    two keys that describe the auth provider *)
Definition forwards_auth_keys (e : event) : Prop :=
  match e with
  | ECluster _ kwargs =>
      is_Some (kwargs !! "authProviderClass") \/ is_Some (kwargs !! "authProviderArgs")
  | _ => False
  end.

(** ** More concrete cases *)

Module Cases.

(** A cloud sub-record with nothing but a token. *)
Definition token_only : gmap string value := {[ "token" := VStr "AstraCS:secret" ]}.
Definition token_only_world : World := mkWorld {[ 0%nat := ODict token_only ]} ∅ [].

(** A cloud sub-record with an endpoint and no token. *)
Definition no_token : gmap string value := {[ "endpoint" := VStr Demo.endpoint ]}.
Definition no_token_world : World := mkWorld {[ 0%nat := ODict no_token ]} ∅ [].

(** Direct mode with an auth provider; its arguments are at location 0. *)
Definition credentials : gmap string value :=
  <[ "username" := VStr "cassandra" ]> {[ "password" := VStr "cassandra" ]}.
Definition auth_args : gmap string value :=
  <[ "authProviderClass" := VStr "cassandra.auth.PlainTextAuthProvider" ]>
  (<[ "authProviderArgs" := VRef 0%nat ]>
   {[ "contact_points" := VStr "127.0.0.1" ]}).
Definition auth_world : World := mkWorld {[ 0%nat := ODict credentials ]} ∅ [].

Definition dotless_args : gmap string value :=
  {[ "authProviderClass" := VStr "PlainTextAuthProvider" ]}.

(** An endpoint that carries the database id only. *)
Definition bare_endpoint : string :=
  "https://0a1b-2c3d-4e5f-6a7b-8c9d.apps.astra.datastax.com".
Definition bare : gmap string value :=
  <[ "endpoint" := VStr bare_endpoint ]> {[ "token" := VStr "AstraCS:secret" ]}.
Definition bare_world : World := mkWorld {[ 0%nat := ODict bare ]} ∅ [].

(** Two environments: a broken direct-mode string, and an Astra token
    with a bundle path. *)
Definition getenv_broken (k : string) : option string :=
  if bool_decide (k = "CASSANDRA_CONNECTION") then Some "{contact_points" else None.
Definition json_refuses (s : string) : M loc :=
  fun w => (Raise (Exn JSONDecodeError
                     "Expecting property name enclosed in double quotes"), w).
(** A parser that gives up on nesting depth. *)
Definition json_too_deep (s : string) : M loc :=
  fun w => (Raise (Exn OtherError "maximum recursion depth exceeded"), w).
(** The cached bundle of [Demo.cached_world], now 400 days old. *)
Definition expired_world : World :=
  mkWorld {[ 0%nat := ODict Demo.cloud_dict ]}
          {[ Demo.bundle_path := mkFile (1700000000 - 400 * 86400) "PK-old" ]} [].

(** An environment whose [urlparse] refuses every URL. *)
Definition refusing : Externals := {|
  time_time := time_time (Demo.ext true);
  gettempdir := gettempdir (Demo.ext true);
  py_str := py_str (Demo.ext true);
  urlparse_netloc := fun _ => Raise (Exn ValueError "Invalid IPv6 URL");
  requests_post := requests_post (Demo.ext true);
  requests_get := requests_get (Demo.ext true);
  import_class := import_class (Demo.ext true);
  new_auth_provider := new_auth_provider (Demo.ext true);
  Cluster := Cluster (Demo.ext true);
  Cluster_connect := Cluster_connect (Demo.ext true)
|}.

Definition getenv_astra (k : string) : option string :=
  if bool_decide (k = "ASTRA_DB_APPLICATION_TOKEN") then Some "AstraCS:secret"
  else if bool_decide (k = "ASTRA_DB_SECURE_BUNDLE_PATH") then Some "/home/me/scb.zip"
  else None.

End Cases.

(** * Properties *)

Example split_demo :
  PyStr.split "-" "ab-cd--e" = ["ab"; "cd"; ""; "e"]
  /\ PyStr.split ".apps" "x.apps.y.appsz" = ["x"; ".y"; "z"]
  /\ PyStr.split "aa" "aaa" = [""; "a"]
  /\ PyStr.replace "{id}" "42" "/db/{id}/x{id}" = "/db/42/x42"
  /\ PyStr.rsplit1 "." "cassandra.auth.Plain" = Some ("cassandra.auth", "Plain")
  /\ PyStr.rsplit1 "." "noDots" = None
  /\ PyStr.path_join "/tmp" "cassandra-astra" = "/tmp/cassandra-astra".
Proof. repeat split; reflexivity. Qed.

Section ManagerFacts.

Variable ext : Externals.

Lemma store_params_connections m k args w :
  _connections (store_params m k args w).1 = _connections m.
Proof.
  unfold store_params. destruct (_ && _); [|done].
  unfold alloc. done.
Qed.

Lemma store_params_keeps m k args w k' p :
  _connection_params m !! k' = Some p ->
  _connection_params (store_params m k args w).1 !! k' = Some p.
Proof.
  intros Hp. unfold store_params.
  destruct (bool_decide (_connection_params m !! k = None)) eqn:Hk; simpl; [|done].
  destruct (negb _); simpl; [|done].
  apply bool_decide_eq_true in Hk.
  rewrite lookup_insert_ne; [done|]. intros ->. congruence.
Qed.

Lemma store_params_stored m k args w p :
  _connection_params m !! k = Some p ->
  store_params m k args w = (m, w).
Proof.
  intros Hp. unfold store_params.
  rewrite bool_decide_eq_false_2; [done|]. congruence.
Qed.

Lemma store_params_empty m k w : store_params m k ∅ w = (m, w).
Proof.
  unfold store_params. rewrite (bool_decide_eq_true_2 (∅ = ∅)) by done.
  by rewrite andb_false_r.
Qed.

(** A hit answers from [_connections] and touches nothing. *)
Lemma get_connector_hit m k args w c :
  _connections m !! k = Some c ->
  get_connector ext m k args w = (Ok c, m, w).
Proof. intros Hc. unfold get_connector. by rewrite Hc. Qed.

(** A call that returns has entered what it returns under its key. *)
Lemma get_connector_enters m k args w c m' w' :
  get_connector ext m k args w = (Ok c, m', w') ->
  _connections m' !! k = Some c.
Proof.
  unfold get_connector. destruct (_connections m !! k) as [c0|] eqn:Hc.
  - intros [= <- <- <-]. done.
  - destruct (store_params m k args w) as [m1 w1].
    destruct (_connection_params m1 !! k); [|discriminate].
    destruct (construct ext _ w1) as [[c1|e] w2]; [|discriminate].
    intros [= <- <- <-]. simpl. by rewrite lookup_insert_eq.
Qed.

(** No call removes or replaces an entry of [_connections]. *)
Lemma get_connector_keeps_connection m k args w r m' w' k0 c :
  _connections m !! k0 = Some c ->
  get_connector ext m k args w = (r, m', w') ->
  _connections m' !! k0 = Some c.
Proof.
  intros H0. unfold get_connector.
  destruct (_connections m !! k) as [c0|] eqn:Hc.
  - intros [= <- <- <-]. done.
  - pose proof (store_params_connections m k args w) as Hs.
    destruct (store_params m k args w) as [m1 w1]. simpl in Hs.
    destruct (_connection_params m1 !! k).
    + destruct (construct ext _ w1) as [[c1|e] w2]; intros [= <- <- <-]; simpl.
      * rewrite Hs. rewrite lookup_insert_ne; [done|]. intros ->. congruence.
      * by rewrite Hs.
    + intros [= <- <- <-]. by rewrite Hs.
Qed.

(** No call removes or replaces an entry of [_connection_params]. *)
Lemma get_connector_keeps_params m k args w r m' w' k0 p :
  _connection_params m !! k0 = Some p ->
  get_connector ext m k args w = (r, m', w') ->
  _connection_params m' !! k0 = Some p.
Proof.
  intros H0. unfold get_connector.
  destruct (_connections m !! k) as [c0|] eqn:Hc.
  - intros [= <- <- <-]. done.
  - pose proof (store_params_keeps m k args w k0 p H0) as Hs.
    destruct (store_params m k args w) as [m1 w1]. simpl in Hs.
    destruct (_connection_params m1 !! k).
    + destruct (construct ext _ w1) as [[c1|e] w2]; intros [= <- <- <-]; done.
    + intros [= <- <- <-]. done.
Qed.

Lemma later_keeps_connection m m' k c :
  later ext m m' -> _connections m !! k = Some c -> _connections m' !! k = Some c.
Proof.
  induction 1 as [|m1 k1 args w r m2 w2 _ IH Hcall]; intros Hc; [done|].
  eapply get_connector_keeps_connection; [exact (IH Hc) | exact Hcall].
Qed.

Lemma later_keeps_params m m' k p :
  later ext m m' ->
  _connection_params m !! k = Some p -> _connection_params m' !! k = Some p.
Proof.
  induction 1 as [|m1 k1 args w r m2 w2 _ IH Hcall]; intros Hp; [done|].
  eapply get_connector_keeps_params; [exact (IH Hp) | exact Hcall].
Qed.

(** C1. Once a call of [get_connector] has returned a connector [c] for
    the key [k], every call for [k] made afterwards, whatever calls came
    in between, with or without arguments and in any world, returns the
    same object [c] (the same location in the store), leaves the world
    as it was (nothing printed, nothing requested, no object written)
    and leaves the manager, hence the entry for [k], unchanged. *)
Theorem get_connector_returns_same_connection m k args w c m1 w1 m2 args' w' :
  get_connector ext m k args w = (Ok c, m1, w1) ->
  later ext m1 m2 ->
  get_connector ext m2 k args' w' = (Ok c, m2, w')
  /\ _connections m2 !! k = Some c.
Proof.
  intros Hcall Hlater.
  apply get_connector_enters in Hcall.
  pose proof (later_keeps_connection _ _ _ _ Hlater Hcall) as Hc.
  split; [by apply get_connector_hit | done].
Qed.

(** C9. A key with no connector, no stored parameters and no arguments
    in the call: [ValueError] whose message quotes the key; manager and
    world are untouched. *)
Theorem get_connector_not_configured m k w :
  _connections m !! k = None ->
  _connection_params m !! k = None ->
  get_connector ext m k ∅ w
  = (Raise (Exn ValueError ("Connection parameters for '" +:+ k +:+ "' not configured.")),
     m, w).
Proof.
  intros Hc Hp. unfold get_connector. rewrite Hc, store_params_empty, Hp. done.
Qed.

End ManagerFacts.

(** ** Splitting and joining *)

Section StringFacts.

Import PyStr.

Lemma split_go_hd sep c s :
  startswith sep (String c s) = false ->
  hd EmptyString (split_go sep 0 (String c s))
  = String c (hd EmptyString (split_go sep 0 s)).
Proof.
  intros H. cbn [split_go]. rewrite H.
  by destruct (split_go sep 0 s).
Qed.

Lemma split_char_cons (c a : ascii) s :
  Ascii.eqb a c = false ->
  split (String c EmptyString) (String a s)
  = match split (String c EmptyString) s with
    | h :: t => String a h :: t
    | [] => [String a EmptyString]
    end.
Proof.
  intros H. unfold split. cbn [split_go startswith].
  rewrite Ascii.eqb_sym, H. done.
Qed.

Lemma split_char_hit (c : ascii) s :
  split (String c EmptyString) (String c s)
  = EmptyString :: split (String c EmptyString) s.
Proof.
  unfold split. cbn [split_go startswith]. rewrite Ascii.eqb_refl. done.
Qed.

(** A piece without the separator comes back whole. *)
Lemma split_char_none (c : ascii) x :
  contains_char c x = false -> split (String c EmptyString) x = [x].
Proof.
  induction x as [|a x IH]; [done|]. cbn [contains_char].
  intros [Ha Hx]%orb_false_elim.
  rewrite split_char_cons by done. by rewrite IH.
Qed.

Lemma split_char_app (c : ascii) x rest :
  contains_char c x = false ->
  split (String c EmptyString) (x +:+ String c rest)
  = x :: split (String c EmptyString) rest.
Proof.
  induction x as [|a x IH]; intros Hx.
  - apply split_char_hit.
  - cbn [contains_char] in Hx. apply orb_false_elim in Hx as [Ha Hx].
    change (String a x +:+ String c rest) with (String a (x +:+ String c rest)).
    rewrite split_char_cons by done. by rewrite IH.
Qed.

(** [sep.join(l).split(sep) == l] for a non-empty list of pieces free
    of the separator character. *)
Lemma split_join_char (c : ascii) (l : list string) :
  l <> [] ->
  Forall (fun x => contains_char c x = false) l ->
  split (String c EmptyString) (join (String c EmptyString) l) = l.
Proof.
  induction l as [|x l IH]; [done|]. intros _ Hall.
  apply Forall_cons in Hall as [Hx Hl].
  destruct l as [|y l].
  - cbn [join]. by apply split_char_none.
  - change (join (String c EmptyString) (x :: y :: l))
      with (x +:+ String c (join (String c EmptyString) (y :: l))).
    rewrite split_char_app by done. by rewrite IH.
Qed.

Lemma contains_char_app c x y :
  contains_char c (x +:+ y) = contains_char c x || contains_char c y.
Proof.
  induction x as [|a x IH]; [done|].
  change (String a x +:+ y) with (String a (x +:+ y)). cbn [contains_char].
  by rewrite IH, orb_assoc.
Qed.

Lemma contains_char_join (c s : ascii) (l : list string) :
  Ascii.eqb s c = false ->
  Forall (fun x => contains_char c x = false) l ->
  contains_char c (join (String s EmptyString) l) = false.
Proof.
  intros Hs. induction l as [|x l IH]; [done|]. intros Hall.
  apply Forall_cons in Hall as [Hx Hl].
  destruct l as [|y l]; [done|].
  change (join (String s EmptyString) (x :: y :: l))
    with (x +:+ String s (join (String s EmptyString) (y :: l))).
  rewrite contains_char_app, Hx. cbn [contains_char orb].
  rewrite Hs. by apply IH.
Qed.

(** The text before the Astra domain suffix, for a host label that has
    no dot of its own. *)
Lemma split_astra_suffix base :
  contains_char "." base = false ->
  hd EmptyString (split astra_suffix (base +:+ astra_suffix)) = base.
Proof.
  induction base as [|a base IH]; [done|]. cbn [contains_char].
  intros [Ha Hx]%orb_false_elim. unfold split in *.
  change (String a base +:+ astra_suffix) with (String a (base +:+ astra_suffix)).
  rewrite split_go_hd.
  - by rewrite IH.
  - unfold astra_suffix. cbn [startswith]. by rewrite Ascii.eqb_sym, Ha.
Qed.

(** C4, on the host alone: five leading segments and the rest. *)
Lemma parse_netloc_segments (ids regions : list string) :
  length ids = 5%nat ->
  Forall (fun x => contains_char "-" x = false) (ids ++ regions) ->
  Forall (fun x => contains_char "." x = false) (ids ++ regions) ->
  parse_netloc (join "-" (ids ++ regions) +:+ astra_suffix)
  = (join "-" ids, join "-" regions).
Proof.
  intros Hlen Hdash Hdot. unfold parse_netloc.
  rewrite split_astra_suffix by (by apply contains_char_join).
  rewrite split_join_char; [|by destruct ids|done].
  by rewrite take_app_length', drop_app_length'.
Qed.

End StringFacts.

(** ** The relations are preorders, and what each one allows *)

Global Instance same_heap_preorder : PreOrder same_heap.
Proof. split; [by intros w | intros w1 w2 w3; unfold same_heap; congruence]. Qed.
Global Instance same_heap_trace : AllowsTrace same_heap.
Proof. by intros w t. Qed.
Global Instance same_heap_fs : AllowsFs same_heap.
Proof. by intros w f. Qed.

Global Instance quiet_preorder : PreOrder quiet.
Proof.
  split; [by intros w | intros w1 w2 w3 [? ?] [? ?]; split; congruence].
Qed.
Global Instance quiet_alloc : AllowsAlloc quiet.
Proof. by intros w l o _. Qed.
Global Instance quiet_ids a : AllowsIds quiet a.
Proof. by intros w d k v _ _. Qed.

Lemma same_but_ids_refl o : same_but_ids o o.
Proof. by destruct o. Qed.

Lemma same_but_ids_trans o1 o2 o3 :
  same_but_ids o1 o2 -> same_but_ids o2 o3 -> same_but_ids o1 o3.
Proof.
  destruct o1, o2, o3; simpl; try congruence.
  intros H12 H23 k Hd Hr. by rewrite H23, H12.
Qed.

Global Instance frame_preorder a : PreOrder (frame a).
Proof.
  split.
  - intros w l o Hl. exists o. split_and!; [done|done|apply same_but_ids_refl].
  - intros w1 w2 w3 H12 H23 l o Hl.
    destruct (H12 l o Hl) as (o2 & Hl2 & Hne2 & Hs2).
    destruct (H23 l o2 Hl2) as (o3 & Hl3 & Hne3 & Hs3).
    exists o3. split_and!; [done| |by eapply same_but_ids_trans].
    intros Hne. rewrite Hne3, Hne2; done.
Qed.
Global Instance frame_trace a : AllowsTrace (frame a).
Proof. intros w t. apply (reflexivity (R := frame a) w). Qed.
Global Instance frame_fs a : AllowsFs (frame a).
Proof. intros w f. apply (reflexivity (R := frame a) w). Qed.
Global Instance frame_alloc a : AllowsAlloc (frame a).
Proof.
  intros w l o Hnone l' o' Hl'. exists o'. simpl.
  split_and!; [|done|apply same_but_ids_refl].
  rewrite lookup_insert_ne; [done|]. intros ->. congruence.
Qed.
Global Instance frame_ids a : AllowsIds (frame (Some a)) a.
Proof.
  intros w d k v Ha Hk l o Hl. simpl.
  destruct (decide (l = a)) as [->|Hne].
  - rewrite lookup_insert_eq. exists (ODict (<[k := v]> d)).
    assert (o = ODict d) as -> by congruence.
    split_and!; [done|congruence|].
    intros k' Hd Hr. rewrite lookup_insert_ne; [done|].
    destruct Hk; congruence.
  - rewrite lookup_insert_ne by done. exists o.
    split_and!; [done|done|apply same_but_ids_refl].
Qed.

Section Steps.

Context (P : relation World) `{!PreOrder P}.

Lemma steps_ret {A} (a : A) : steps P (mret a).
Proof. intros w r w' [= <- <-]. reflexivity. Qed.

Lemma steps_raise {A} k msg : steps P (@raise A k msg).
Proof. intros w r w' [= <- <-]. reflexivity. Qed.

Lemma steps_bind {A B} (m : M A) (f : A -> M B) :
  steps P m -> (forall a, steps P (f a)) -> steps P (m ≫= f).
Proof.
  intros Hm Hf w r w'. unfold mbind, M_bind.
  destruct (m w) as [[a|e] w1] eqn:Hmw.
  - intros Hfa. etrans; [eapply Hm, Hmw | eapply Hf, Hfa].
  - intros [= <- <-]. eapply Hm, Hmw.
Qed.

Lemma steps_bind_ret {A B} (a : A) (f : A -> M B) :
  steps P (f a) -> steps P (mret a ≫= f).
Proof. intros H w r w' Hrun. exact (H w r w' Hrun). Qed.

Lemma steps_get_world : steps P get_world.
Proof. intros w r w' [= <- <-]. reflexivity. Qed.

Lemma steps_read_dict l : steps P (read_dict l).
Proof.
  intros w r w'. unfold read_dict.
  destruct (heap w !! l) as [[d|c]|]; intros [= <- <-]; reflexivity.
Qed.

Lemma steps_getitem {V} (d : gmap string V) k : steps P (getitem d k).
Proof.
  unfold getitem. destruct (d !! k); [apply steps_ret | apply steps_raise].
Qed.

Lemma steps_emit `{!AllowsTrace P} e : steps P (emit e).
Proof. intros w r w' [= <- <-]. apply allows_trace. Qed.

Lemma steps_call `{!AllowsTrace P} {A} e (f : World -> result A) :
  steps P (call e f).
Proof. intros w r w' [= <- <-]. apply allows_trace. Qed.

Lemma steps_alloc `{!AllowsAlloc P} o : steps P (alloc o).
Proof.
  intros w r w' [= <- <-]. apply allows_alloc.
  apply not_elem_of_dom, is_fresh.
Qed.

Lemma steps_setitem_id a `{!AllowsIds P a} k v :
  k = "datacenterID" \/ k = "regionName" -> steps P (setitem a k v).
Proof.
  intros Hk w r w'. unfold setitem.
  destruct (heap w !! a) as [[d|c]|] eqn:Ha; intros [= <- <-];
    [by apply allows_ids | reflexivity | reflexivity].
Qed.

End Steps.

Create HintDb steps.

(** Walks through a block of statements, one bind at a time. *)
Ltac steps_go :=
  repeat first
    [ solve [auto with steps typeclass_instances]
    | apply steps_ret; solve [apply _]
    | apply steps_raise; solve [apply _]
    | apply steps_get_world; solve [apply _]
    | apply steps_read_dict; solve [apply _]
    | apply steps_getitem; solve [apply _]
    | apply steps_call; solve [apply _]
    | apply steps_emit; solve [apply _]
    | apply steps_alloc; solve [apply _]
    | apply steps_setitem_id; [solve [apply _] | solve [apply _] | solve [auto] ]
    | apply steps_bind; [solve [apply _] | | intros ? ]
    | match goal with
      | |- steps _ (match ?x with _ => _ end) => destruct x
      end ].

Section ConnectorSteps.

Variable ext : Externals.
Context (P : relation World) `{!PreOrder P}.

Lemma steps_format_value v : steps P (format_value ext v).
Proof. intros w r w' [= <- <-]. reflexivity. Qed.

Lemma steps_raise_for_status r : steps P (raise_for_status r).
Proof. unfold raise_for_status. steps_go. Qed.

Lemma steps_json r : steps P (json r).
Proof. unfold json. steps_go. Qed.

Lemma steps_next_regional data rn : steps P (next_regional data rn).
Proof. induction data as [|b data IH]; simpl; steps_go. Qed.

Lemma steps_urlparse_netloc_of v : steps P (urlparse_netloc_of ext v).
Proof.
  unfold urlparse_netloc_of. destruct v; steps_go.
  intros w r w' [= <- <-]. reflexivity.
Qed.

Lemma steps_makedirs p : steps P (makedirs p).
Proof. unfold makedirs. steps_go. Qed.

Lemma steps_must_download p : steps P (must_download ext p).
Proof.
  intros w r w'. unfold must_download.
  destruct (fs w !! p); intros [= <- <-]; reflexivity.
Qed.

Lemma steps_write_file `{!AllowsFs P} p data : steps P (write_file ext p data).
Proof. intros w r w' [= <- <-]. apply allows_fs. Qed.

Lemma steps_unpack_kwargs v : steps P (unpack_kwargs v).
Proof. unfold unpack_kwargs. steps_go. Qed.

Hint Resolve steps_format_value steps_raise_for_status steps_json
  steps_next_regional steps_urlparse_netloc_of steps_makedirs
  steps_must_download steps_write_file steps_unpack_kwargs : steps.

Lemma steps_select_download_url d data : steps P (select_download_url ext d data).
Proof. unfold select_download_url. steps_go. Qed.

Hint Resolve steps_select_download_url : steps.

Lemma steps_bundle_url `{!AllowsTrace P} a :
  steps P (_get_secure_connect_bundle_url ext a).
Proof. unfold _get_secure_connect_bundle_url. steps_go. Qed.

Lemma steps_scb_cache_path a : steps P (scb_cache_path ext a).
Proof. unfold scb_cache_path. steps_go. Qed.

Lemma steps_resolve_identifiers a `{!AllowsIds P a} :
  steps P (resolve_identifiers ext a).
Proof. unfold resolve_identifiers. steps_go. Qed.

Hint Resolve steps_bundle_url steps_scb_cache_path steps_resolve_identifiers : steps.

Lemma steps_download_bundle `{!AllowsTrace P} `{!AllowsFs P} a p :
  steps P (download_bundle ext a p).
Proof. unfold download_bundle. steps_go. Qed.

Hint Resolve steps_download_bundle : steps.

Lemma steps_get_or_download `{!AllowsTrace P} `{!AllowsFs P} a `{!AllowsIds P a} :
  steps P (_get_or_download_secure_connect_bundle ext a).
Proof. unfold _get_or_download_secure_connect_bundle. steps_go. Qed.

Lemma steps_setup_cassandra `{!AllowsTrace P} self :
  steps P (_setup_cassandra_connection ext self).
Proof. unfold _setup_cassandra_connection, dict_pop. steps_go. Qed.

End ConnectorSteps.

#[global] Hint Resolve steps_format_value steps_raise_for_status steps_json
  steps_next_regional steps_urlparse_netloc_of steps_makedirs
  steps_must_download steps_write_file steps_unpack_kwargs
  steps_bundle_url steps_scb_cache_path steps_resolve_identifiers
  steps_download_bundle steps_get_or_download steps_setup_cassandra : steps.

Section ConstructorSteps.

Variable ext : Externals.
Context (P : relation World) `{!PreOrder P}
        `{!AllowsTrace P} `{!AllowsFs P} `{!AllowsAlloc P}.

Lemma steps_connect_with_bundle self a scb_path :
  steps P (connect_with_bundle ext self a scb_path).
Proof. unfold connect_with_bundle. steps_go. Qed.

Lemma steps_setup_astra self :
  (forall a, cloud_record (_connection_args self) = Some a -> AllowsIds P a) ->
  steps P (_setup_astra_connection ext self).
Proof.
  intros Hids. unfold _setup_astra_connection, getitem, cloud_record in *.
  destruct (_connection_args self !! "astra") as [v|]; [|steps_go].
  apply steps_bind_ret.
  destruct v as [| | |s|a]; try (apply steps_raise; apply _).
  { destruct (_ || _); apply steps_raise; apply _. }
  assert (AllowsIds P a) by (by apply Hids).
  pose proof (steps_connect_with_bundle self a).
  steps_go.
Qed.

Lemma steps_CassandraConnector kwargs :
  (forall a, cloud_record kwargs = Some a -> AllowsIds P a) ->
  steps P (CassandraConnector ext kwargs).
Proof.
  intros Hids. unfold CassandraConnector. simpl.
  pose proof (steps_setup_astra (mkConnector kwargs "astra" None None) Hids).
  pose proof (steps_setup_cassandra ext P).
  steps_go.
Qed.

End ConstructorSteps.

(** Unfolds the monad so that a run can be followed by rewriting. *)
Ltac unfold_monad :=
  unfold getitem, get_world, raise in *;
  unfold mbind, M_bind, mret, M_ret in *.

Section BundleFacts.

Variable ext : Externals.

Lemma read_dict_at a d w :
  heap w !! a = Some (ODict d) -> read_dict a w = (Ok d, w).
Proof. intros H. unfold read_dict. by rewrite H. Qed.

(** C6. A cloud configuration with an explicit bundle path (a non-empty
    string under [scb]): resolution returns that very path and leaves
    the world as it found it, so no request is recorded; and since this
    holds in every world, neither the cache file nor the clock plays
    any part. *)
Theorem explicit_bundle_path_is_returned a d path w :
  heap w !! a = Some (ODict d) ->
  d !! "scb" = Some (VStr path) ->
  path <> EmptyString ->
  _get_or_download_secure_connect_bundle ext a w = (Ok (VStr path), w).
Proof.
  intros Ha Hscb Hne.
  unfold _get_or_download_secure_connect_bundle. unfold_monad.
  rewrite (read_dict_at _ _ _ Ha). unfold has_truthy. rewrite Hscb. simpl.
  by rewrite bool_decide_eq_false_2.
Qed.

(** C7 (what the code does). Reading [connector.session] returns the
    session made at construction and calls nothing: the [new] option of
    the getter cannot be given through the property, so no fresh
    session is ever opened this way. *)
Theorem session_property_returns_cached c conn w :
  heap w !! c = Some (OConnector conn) ->
  session ext c w = (Ok (_session conn), w)
  /\ trace (session ext c w).2 = trace w.
Proof.
  intros Hc.
  cut (session ext c w = (Ok (_session conn), w)); [by intros ->|].
  unfold session, session_fget, read_connector. unfold_monad. by rewrite Hc.
Qed.

(** The getter itself, were it called with [new=True]: one [connect] on
    the cluster, the connector object untouched. *)
Lemma session_fget_new c conn cl w :
  heap w !! c = Some (OConnector conn) ->
  _cluster conn = Some cl ->
  let w' := mkWorld (heap w) (fs w) (trace w ++ [EConnect cl]) in
  session_fget ext c true w
  = (match Cluster_connect ext w' cl with
     | Ok s => Ok (Some s)
     | Raise e => Raise e
     end, w').
Proof.
  intros Hc Hcl. unfold session_fget, read_connector, call. unfold_monad.
  rewrite Hc, Hcl. simpl. by destruct (Cluster_connect _ _ _).
Qed.

End BundleFacts.

(** ** The choice among the discovered bundles *)

Section Selection.

Variable ext : Externals.

Lemma next_regional_none data r w :
  Forall well_formed_entry data ->
  Forall (fun b => b !! "region" <> Some r) data ->
  next_regional data (VStr r) w = (Ok None, w).
Proof.
  induction data as [|b data IH]; [done|].
  intros [[[x Hx] _] Hwf]%Forall_cons [Hb Hrest]%Forall_cons.
  simpl. unfold_monad. rewrite Hx. simpl.
  rewrite bool_decide_eq_false_2 by congruence. by apply IH.
Qed.

Lemma next_regional_first pre b post r w :
  Forall well_formed_entry pre ->
  Forall (fun b' => b' !! "region" <> Some r) pre ->
  b !! "region" = Some r ->
  next_regional (pre ++ b :: post) (VStr r) w = (Ok (Some b), w).
Proof.
  intros Hwf Hpre Hb. induction pre as [|b' pre IH]; simpl; unfold_monad.
  - rewrite Hb. simpl. by rewrite bool_decide_eq_true_2.
  - apply Forall_cons in Hwf as [[[x Hx] _] Hwf].
    apply Forall_cons in Hpre as [Hb' Hpre].
    rewrite Hx. simpl. rewrite bool_decide_eq_false_2 by congruence.
    by apply IH.
Qed.

(** C3. For every discovery answer [data] with well-formed entries:
    an empty list fails with "Failed to get secure bundle URLs."; with
    no region asked for (absent, [None] or empty), the URL of the first
    entry is chosen; with the region [r] asked for, the URL of the
    (first) entry whose [region] is exactly [r] is chosen, and if there
    is none the call fails with a [ValueError] that quotes [r].  The
    choice itself changes nothing in the world. *)
Theorem select_download_url_by_region d data w :
  Forall well_formed_entry data ->
  (data = [] ->
     select_download_url ext d data w
     = (Raise (Exn ValueError "Failed to get secure bundle URLs."), w))
  /\ (forall first rest u,
        data = first :: rest ->
        has_truthy (heap w) d "regionName" = false ->
        first !! "downloadURL" = Some u ->
        select_download_url ext d data w = (Ok u, w))
  /\ (forall r,
        d !! "regionName" = Some (VStr r) -> r <> EmptyString ->
        (forall pre b post u,
           data = pre ++ b :: post ->
           Forall (fun b' => b' !! "region" <> Some r) pre ->
           b !! "region" = Some r ->
           b !! "downloadURL" = Some u ->
           select_download_url ext d data w = (Ok u, w))
        /\ (data <> [] ->
            Forall (fun b => b !! "region" <> Some r) data ->
            select_download_url ext d data w
            = (Raise (Exn ValueError
                 ("Specific bundle for region '" +:+ r +:+ "' not found.")), w))).
Proof.
  intros Hwf. split_and!.
  - by intros ->.
  - intros first rest u -> Hno Hu. unfold select_download_url. unfold_monad.
    rewrite Hu. simpl. by rewrite Hno.
  - intros r Hr Hne.
    assert (has_truthy (heap w) d "regionName" = true) as Hyes.
    { unfold has_truthy. rewrite Hr. simpl. by rewrite bool_decide_eq_false_2. }
    split.
    + intros pre b post u -> Hpre Hb Hu.
      apply Forall_app in Hwf as [Hwfpre Hwfb].
      pose proof (next_regional_first pre b post r w Hwfpre Hpre Hb) as Hnext.
      unfold select_download_url.
      destruct (pre ++ b :: post) as [|first rest] eqn:Hdata;
        [by destruct pre|]. rewrite <- Hdata in *.
      assert (is_Some (first !! "downloadURL")) as [u0 Hu0].
      { destruct pre as [|b0 pre]; simpl in Hdata; simplify_eq.
        - by eexists.
        - by apply Forall_cons in Hwfpre as [[_ ?] _]. }
      unfold_monad. rewrite Hu0. simpl. rewrite Hyes, Hr. simpl. rewrite Hnext.
      rewrite bool_decide_eq_false_2; [by rewrite Hu|].
      intros ->. by rewrite lookup_empty in Hb.
    + intros Hdata Hall. destruct data as [|first rest]; [done|].
      pose proof (next_regional_none _ r w Hwf Hall) as Hnext.
      apply Forall_cons in Hwf as [[_ [u0 Hu0]] _].
      unfold select_download_url, format_value. unfold_monad.
      rewrite Hu0. cbn -[next_regional]. rewrite Hyes, Hr. cbn -[next_regional].
      by rewrite Hnext.
Qed.

End Selection.

(** ** Identifiers read off the endpoint *)

Section Identifiers.

Variable ext : Externals.

(** Writing into a non-empty dictionary changes no truth value. *)
Lemma truthy_insert_dict h a d d1 v :
  h !! a = Some (ODict d) -> d <> ∅ -> d1 <> ∅ ->
  truthy (<[a := ODict d1]> h) v = truthy h v.
Proof.
  intros Ha Hd Hd1. destruct v as [| | | |l]; try done. simpl.
  destruct (decide (l = a)) as [->|Hne].
  - rewrite lookup_insert_eq, Ha.
    by rewrite !bool_decide_eq_false_2.
  - by rewrite lookup_insert_ne.
Qed.

Lemma dict_get_insert_ne (d : gmap string value) k k' v :
  k <> k' -> dict_get (<[k := v]> d) k' = dict_get d k'.
Proof. intros H. unfold dict_get. by rewrite lookup_insert_ne. Qed.

Lemma resolve_identifiers_endpoint a d e netloc w :
  heap w !! a = Some (ODict d) ->
  d !! "endpoint" = Some (VStr e) ->
  e <> EmptyString ->
  urlparse_netloc ext e = Ok netloc ->
  resolve_identifiers ext a w
  = (Ok tt, mkWorld (<[a := ODict (with_identifiers (heap w) d netloc)]> (heap w))
                    (fs w) (trace w)).
Proof.
  intros Ha He Hne Hnet.
  assert (d <> ∅) as Hd by (intros ->; by rewrite lookup_empty in He).
  unfold resolve_identifiers, with_identifiers. unfold_monad.
  rewrite (read_dict_at _ _ _ Ha). unfold has_truthy. rewrite He. simpl.
  rewrite bool_decide_eq_false_2 by done. simpl. rewrite Hnet.
  destruct (parse_netloc netloc) as [dc rn]. simpl.
  unfold setitem at 1. rewrite Ha. simpl.
  unfold read_dict. simpl. rewrite lookup_insert_eq.
  unfold setitem. simpl. rewrite lookup_insert_eq.
  rewrite insert_insert_eq, dict_get_insert_ne by done.
  unfold py_or at 1. rewrite (truthy_insert_dict _ _ d); [done..|].
  apply insert_non_empty.
Qed.

Lemma get_or_download_unfold a d w :
  heap w !! a = Some (ODict d) ->
  _get_or_download_secure_connect_bundle ext a w
  = if has_truthy (heap w) d "scb" then getitem d "scb" w
    else match resolve_identifiers ext a w with
         | (Ok _, w1) => after_identifiers ext a w1
         | (Raise e, w1) => (Raise e, w1)
         end.
Proof.
  intros Ha. unfold _get_or_download_secure_connect_bundle.
  unfold mbind at 1, M_bind at 1. rewrite (read_dict_at _ _ _ Ha).
  unfold mbind at 1, M_bind at 1, get_world at 1.
  destruct (has_truthy (heap w) d "scb"); [done|].
  unfold mbind at 1, M_bind at 1.
  by destruct (resolve_identifiers ext a w) as [[[]|e] w1].
Qed.

Lemma steps_after_identifiers a : steps same_heap (after_identifiers ext a).
Proof. unfold after_identifiers. steps_go. Qed.

(** C4. A cloud configuration without an explicit bundle path whose
    endpoint has the host [ids-regions.apps.astra.datastax.com], with
    [ids] five dash-free, dot-free segments and [regions] any number
    more: after bundle resolution (however the later download goes) the
    dictionary holds as [datacenterID] the value the configuration gave
    if it is a true value, and otherwise the five segments joined by
    dashes; and as [regionName] the value the configuration gave if it
    is a true value, and otherwise the remaining segments joined by
    dashes. *)
Theorem endpoint_gives_identifiers a d e ids regions w :
  heap w !! a = Some (ODict d) ->
  has_truthy (heap w) d "scb" = false ->
  d !! "endpoint" = Some (VStr e) ->
  e <> EmptyString ->
  urlparse_netloc ext e = Ok (PyStr.join "-" (ids ++ regions) +:+ astra_suffix) ->
  length ids = 5%nat ->
  Forall (fun x => PyStr.contains_char "-" x = false) (ids ++ regions) ->
  Forall (fun x => PyStr.contains_char "." x = false) (ids ++ regions) ->
  parse_netloc (PyStr.join "-" (ids ++ regions) +:+ astra_suffix)
  = (PyStr.join "-" ids, PyStr.join "-" regions)
  /\ exists d',
    heap (_get_or_download_secure_connect_bundle ext a w).2 !! a = Some (ODict d')
    /\ d' !! "datacenterID"
       = Some (if has_truthy (heap w) d "datacenterID"
               then dict_get d "datacenterID"
               else VStr (PyStr.join "-" ids))
    /\ d' !! "regionName"
       = Some (if has_truthy (heap w) d "regionName"
               then dict_get d "regionName"
               else VStr (PyStr.join "-" regions)).
Proof.
  intros Ha Hscb He Hne Hnet Hlen Hdash Hdot.
  pose proof (parse_netloc_segments ids regions Hlen Hdash Hdot) as Hparse.
  split; [done|].
  pose proof (resolve_identifiers_endpoint a d e _ w Ha He Hne Hnet) as Hres.
  set (w1 := mkWorld _ _ _) in Hres.
  exists (with_identifiers (heap w) d (PyStr.join "-" (ids ++ regions) +:+ astra_suffix)).
  split.
  - rewrite (get_or_download_unfold _ _ _ Ha), Hscb, Hres.
    destruct (after_identifiers ext a w1) as [r w2] eqn:Hrun.
    apply steps_after_identifiers in Hrun. unfold same_heap in Hrun. simpl.
    rewrite Hrun. subst w1. simpl. by rewrite lookup_insert_eq.
  - unfold with_identifiers. rewrite Hparse. simpl.
    rewrite lookup_insert_ne by done. rewrite !lookup_insert_eq.
    unfold py_or, has_truthy, dict_get.
    split; f_equal.
    + by destruct (d !! "datacenterID").
    + by destruct (d !! "regionName").
Qed.

End Identifiers.

(** ** The cached bundle and its age *)

Section Cache.

Variable ext : Externals.

Lemma select_download_url_pure d data w r w' :
  select_download_url ext d data w = (r, w') -> w' = w.
Proof.
  intros H. symmetry.
  by apply (steps_select_download_url ext eq d data w r w').
Qed.

Lemma scb_cache_path_pure a w r w' :
  scb_cache_path ext a w = (r, w') -> w' = w.
Proof.
  intros H. symmetry. by apply (steps_scb_cache_path ext eq a w r w').
Qed.

(** A discovery that answers has made exactly one request. *)
Lemma bundle_url_requested a u w w2 :
  _get_secure_connect_bundle_url ext a w = (Ok u, w2) ->
  exists url headers,
    w2 = mkWorld (heap w) (fs w) (trace w ++ [EPost url headers]).
Proof.
  unfold _get_secure_connect_bundle_url, read_dict, call, raise_for_status,
    json, format_value.
  unfold_monad. intros H.
  repeat (case_match; simplify_eq/=; try done);
    match goal with
    | H : select_download_url _ _ _ _ = _ |- _ =>
        apply select_download_url_pure in H; subst; eauto
    end.
Qed.

End Cache.

(** ** What construction writes *)

Section Writes.

Variable ext : Externals.

(** With an explicit bundle path, or without an endpoint, bundle
    resolution writes nothing in the store. *)
Lemma get_or_download_no_write a d w r w' :
  heap w !! a = Some (ODict d) ->
  has_truthy (heap w) d "scb" = true \/ has_truthy (heap w) d "endpoint" = false ->
  _get_or_download_secure_connect_bundle ext a w = (r, w') ->
  heap w' = heap w.
Proof.
  intros Ha Hcase. rewrite (get_or_download_unfold _ _ _ _ Ha).
  destruct (has_truthy (heap w) d "scb") eqn:Hscb.
  - unfold_monad. destruct (d !! "scb"); by intros [= <- <-].
  - destruct Hcase as [|Hend]; [done|].
    assert (exists r1, resolve_identifiers ext a w = (r1, w)) as [r1 ->].
    { unfold resolve_identifiers. unfold_monad.
      rewrite (read_dict_at _ _ _ Ha), Hend.
      destruct (_ || _); eauto. }
    destruct r1 as [[]|e]; [|by intros [= <- <-]].
    intros Hrun. by apply steps_after_identifiers in Hrun.
Qed.

Lemma frame_lookup oa w w' l o :
  frame oa w w' -> heap w !! l = Some o -> Some l <> oa -> heap w' !! l = Some o.
Proof.
  intros Hf Hl Hne. destruct (Hf l o Hl) as (o' & Hl' & Ho' & _).
  by rewrite Hl', Ho'.
Qed.

Lemma frame_none_of_same_heap w w1 w' oa :
  heap w1 = heap w -> frame None w1 w' -> frame oa w w'.
Proof.
  intros Heq Hf l o Hl. rewrite <- Heq in Hl.
  destruct (Hf l o Hl) as (o' & Hl' & Ho' & _).
  rewrite Ho' in Hl' by done.
  exists o. split_and!; [done|done|apply same_but_ids_refl].
Qed.

(** Construction, seen from the store: either the cloud sub-record is
    not written at all, or bundle resolution ran on it first. *)
Lemma CassandraConnector_writes kwargs w r w' :
  CassandraConnector ext kwargs w = (r, w') ->
  frame (cloud_record kwargs) w w'
  /\ (forall a d,
        cloud_record kwargs = Some a ->
        heap w !! a = Some (ODict d) ->
        has_truthy (heap w) d "scb" = true \/ has_truthy (heap w) d "endpoint" = false ->
        heap w' !! a = Some (ODict d)).
Proof.
  intros Hrun. split.
  - eapply (steps_CassandraConnector ext (frame (cloud_record kwargs))), Hrun.
    intros a ->. apply _.
  - intros a d Hcloud Ha Hcase.
    cut (frame None w w').
    { intros Hf. by eapply frame_lookup. }
    revert Hrun. unfold CassandraConnector. simpl.
    unfold mbind at 1, M_bind at 1, get_world at 1.
    unfold cloud_record in Hcloud.
    destruct (kwargs !! "astra") as [[| | | |a0]|] eqn:Hastra; simplify_eq.
    destruct (truthy (heap w) (dict_get kwargs "astra")).
    + unfold _setup_astra_connection, getitem. simpl. rewrite Hastra.
      unfold_monad.
      destruct (_get_or_download_secure_connect_bundle ext a w)
        as [[scb_path|e] w1] eqn:Hdl.
      * apply (get_or_download_no_write _ _ _ _ _ Ha Hcase) in Hdl.
        intros Hrest. apply (frame_none_of_same_heap w w1); [done|].
        revert Hrest.
        match goal with
        | |- match ?m w1 with _ => _ end = _ -> _ =>
            destruct (m w1) as [[self|e] w2] eqn:Hrest;
            apply (steps_connect_with_bundle ext (frame None)) in Hrest
        end.
        -- intros Halloc.
           apply (steps_alloc (frame None)) in Halloc. by etrans.
        -- by intros [= <- <-].
      * apply (get_or_download_no_write _ _ _ _ _ Ha Hcase) in Hdl.
        intros [= <- <-].
        apply (frame_none_of_same_heap w w1); [done|reflexivity].
    + intros Hrun.
      assert (steps (frame None)
                (self ← _setup_cassandra_connection ext
                          (mkConnector kwargs "cassandra" None None);
                 alloc (OConnector self))) as Hs by steps_go.
      eapply Hs, Hrun.
Qed.

(** The stored top-level dictionary survives construction from it. *)
Lemma construct_keeps_params p cfg w r w' :
  heap w !! p = Some (ODict cfg) ->
  construct ext p w = (r, w') ->
  cloud_record cfg <> Some p ->
  heap w' !! p = Some (ODict cfg).
Proof.
  intros Hp. unfold construct. unfold_monad. rewrite (read_dict_at _ _ _ Hp).
  intros [Hframe _]%CassandraConnector_writes Hne.
  eapply frame_lookup; [done..|congruence].
Qed.

End Writes.

(** ** Failure, retry, and stored parameters *)

Section Retry.

Variable ext : Externals.

(** A call that finds no connector for the key and has parameters for
    it (after line 74) constructs from them. *)
Lemma get_connector_miss m k args w m1 w1 p :
  _connections m !! k = None ->
  store_params m k args w = (m1, w1) ->
  _connection_params m1 !! k = Some p ->
  get_connector ext m k args w
  = match construct ext p w1 with
    | (Ok c, w2) =>
        (Ok c, mkManager (_connection_params m1) (<[k := c]> (_connections m1)),
         print (msg_initialized k) w2)
    | (Raise e, w2) =>
        (Raise (Exn ValueError (msg_not_initialized k)), m1,
         print ("Error: " +:+ exn_str e) (print (msg_failed k) w2))
    end.
Proof.
  intros Hc Hs Hp. unfold get_connector. by rewrite Hc, Hs, Hp.
Qed.

(** C2. When the call reaches construction (no connector yet for [k],
    parameters [p] at hand after line 74) and construction raises [e]:
    the caller gets [ValueError("Connection for 'k' could not be
    initialized.")], two lines naming the key and [str(e)] were
    printed, and [_connections] has no entry for [k].  A later call for
    [k], whatever its arguments and world, constructs again from the
    same stored parameters: it returns the connector if construction
    now succeeds and raises the same [ValueError] if it fails again. *)
Theorem failed_construction_is_not_cached m k args w m1 w1 p e w2 :
  _connections m !! k = None ->
  store_params m k args w = (m1, w1) ->
  _connection_params m1 !! k = Some p ->
  construct ext p w1 = (Raise e, w2) ->
  get_connector ext m k args w
  = (Raise (Exn ValueError ("Connection for '" +:+ k +:+ "' could not be initialized.")),
     m1,
     print ("Error: " +:+ exn_str e)
           (print ("Failed to setup connection for '" +:+ k +:+ "'") w2))
  /\ _connections m1 !! k = None
  /\ forall args' w',
       (forall c w'',
          construct ext p w' = (Ok c, w'') ->
          get_connector ext m1 k args' w'
          = (Ok c, mkManager (_connection_params m1) (<[k := c]> (_connections m1)),
             print ("Connection for '" +:+ k +:+ "' initialized successfully.") w''))
       /\ (forall e' w'',
             construct ext p w' = (Raise e', w'') ->
             get_connector ext m1 k args' w'
             = (Raise (Exn ValueError
                  ("Connection for '" +:+ k +:+ "' could not be initialized.")),
                m1,
                print ("Error: " +:+ exn_str e')
                      (print ("Failed to setup connection for '" +:+ k +:+ "'") w''))).
Proof.
  intros Hc Hs Hp Hfail.
  assert (_connections m1 !! k = None) as Hc1.
  { pose proof (store_params_connections m k args w) as E.
    rewrite Hs in E. simpl in E. by rewrite E. }
  split_and!; [|done|].
  - by rewrite (get_connector_miss _ _ _ _ _ _ _ Hc Hs Hp), Hfail.
  - intros args' w'.
    pose proof (store_params_stored m1 k args' w' p Hp) as Hs'.
    split; intros ? w'' Hrun;
      by rewrite (get_connector_miss _ _ _ _ _ _ _ Hc1 Hs' Hp), Hrun.
Qed.

(** A call that brings arguments for a key without parameters keeps
    them, whether or not construction then succeeds. *)
Lemma get_connector_stores_args m k args w r m' w' :
  _connections m !! k = None ->
  _connection_params m !! k = None ->
  args <> ∅ ->
  get_connector ext m k args w = (r, m', w') ->
  _connection_params m' !! k = Some (fresh (dom (heap w))).
Proof.
  intros Hc Hp Hargs. unfold get_connector. rewrite Hc.
  unfold store_params. rewrite Hp.
  rewrite bool_decide_eq_true_2, bool_decide_eq_false_2 by done. simpl.
  rewrite lookup_insert_eq.
  destruct (construct _ _ _) as [[c|e] w2]; intros [= <- <- <-]; simpl;
    by rewrite lookup_insert_eq.
Qed.

(** C10. Once parameters [p] are stored for [k], then after any further
    calls: a call for [k] with arguments behaves exactly as the same
    call without any; [k] still maps to the same stored dictionary
    afterwards; if no connector exists yet, the outcome is that of
    constructing from [p]; the call does not write the stored
    dictionary (unless that dictionary is its own cloud sub-record); and,
    with [cfg] the content of the stored dictionary when the call is
    made and no connector yet for [k], the call is the constructor
    applied to the keyword arguments [cfg] -- the arguments of the call
    itself appear nowhere: its connector is returned and entered under
    [k], or its exception is reported and replaced by the
    [ValueError]. *)
Theorem stored_parameters_win m k p m2 args w :
  _connection_params m !! k = Some p ->
  later ext m m2 ->
  get_connector ext m2 k args w = get_connector ext m2 k ∅ w
  /\ _connection_params (get_connector ext m2 k args w).1.2 !! k = Some p
  /\ (_connections m2 !! k = None ->
      (get_connector ext m2 k args w).1.1
      = match construct ext p w with
        | (Ok c, _) => Ok c
        | (Raise _, _) =>
            Raise (Exn ValueError
                     ("Connection for '" +:+ k +:+ "' could not be initialized."))
        end)
  /\ (forall cfg,
        heap w !! p = Some (ODict cfg) ->
        cloud_record cfg <> Some p ->
        heap (get_connector ext m2 k args w).2 !! p = Some (ODict cfg))
  /\ (forall cfg,
        heap w !! p = Some (ODict cfg) ->
        _connections m2 !! k = None ->
        get_connector ext m2 k args w
        = match CassandraConnector ext cfg w with
          | (Ok c, w') =>
              (Ok c,
               mkManager (_connection_params m2) (<[k := c]> (_connections m2)),
               print ("Connection for '" +:+ k +:+ "' initialized successfully.") w')
          | (Raise e, w') =>
              (Raise (Exn ValueError
                        ("Connection for '" +:+ k +:+ "' could not be initialized.")),
               m2,
               print ("Error: " +:+ exn_str e)
                     (print ("Failed to setup connection for '" +:+ k +:+ "'") w'))
          end).
Proof.
  intros Hp Hlater.
  pose proof (later_keeps_params ext _ _ _ _ Hlater Hp) as Hp2.
  assert (forall a, store_params m2 k a w = (m2, w)) as Hs
    by (intros a; by eapply store_params_stored).
  split_and!.
  - unfold get_connector. by rewrite !Hs.
  - destruct (get_connector ext m2 k args w) as [[r m3] w3] eqn:Hcall.
    by eapply get_connector_keeps_params.
  - intros Hc. rewrite (get_connector_miss _ _ _ _ _ _ _ Hc (Hs args) Hp2).
    by destruct (construct ext p w) as [[c|e] w1].
  - intros cfg Hcfg Hne.
    destruct (_connections m2 !! k) as [c|] eqn:Hc.
    + by rewrite (get_connector_hit ext _ _ _ _ _ Hc).
    + rewrite (get_connector_miss _ _ _ _ _ _ _ Hc (Hs args) Hp2).
      destruct (construct ext p w) as [[c|e] w1] eqn:Hrun; simpl;
      by eapply construct_keeps_params.
  - intros cfg Hcfg Hc.
    rewrite (get_connector_miss _ _ _ _ _ _ _ Hc (Hs args) Hp2).
    unfold construct. unfold mbind at 1, M_bind at 1.
    by rewrite (read_dict_at _ _ _ Hcfg).
Qed.

End Retry.

(** Pre-registration from the environment: with an application token set
    (and no direct-mode string), the manager starts with parameters under
    [env_astra] and no connector. *)
Lemma manager_init_registers_astra getenv json_loads tok w :
  getenv "CASSANDRA_CONNECTION" = None ->
  getenv "ASTRA_DB_APPLICATION_TOKEN" = Some tok ->
  tok <> EmptyString ->
  exists m w' p,
    manager_init getenv json_loads w = (Ok m, w')
    /\ _connection_params m !! "env_astra" = Some p
    /\ _connections m = ∅.
Proof.
  intros Hc Ht Hne. unfold manager_init, getenv_value, alloc. unfold_monad.
  rewrite Hc, Ht. simpl. rewrite bool_decide_eq_false_2 by done. simpl.
  do 3 eexists. split; [reflexivity|]. simpl.
  by rewrite lookup_insert_eq.
Qed.

(** ** More on the manager *)

Section ManagerMore.

Variable ext : Externals.

(** X2. A call for the key [k] leaves the entries of every other key, in
    both dictionaries of the manager, exactly as they were. *)
Theorem get_connector_touches_only_its_key m k args w k' :
  k' <> k ->
  _connections (get_connector ext m k args w).1.2 !! k' = _connections m !! k'
  /\ _connection_params (get_connector ext m k args w).1.2 !! k'
     = _connection_params m !! k'.
Proof.
  intros Hne. unfold get_connector.
  destruct (_connections m !! k) as [c|]; [done|].
  assert (_connections (store_params m k args w).1 = _connections m) as Hc
    by apply store_params_connections.
  assert (_connection_params (store_params m k args w).1 !! k'
          = _connection_params m !! k') as Hp.
  { unfold store_params. destruct (_ && _); [|done]. simpl.
    by rewrite lookup_insert_ne. }
  destruct (store_params m k args w) as [m1 w1]. simpl in Hc, Hp.
  destruct (_connection_params m1 !! k).
  - destruct (construct ext _ w1) as [[c|e] w2]; simpl; rewrite ?Hc; [|done].
    by rewrite lookup_insert_ne.
  - simpl. by rewrite Hc.
Qed.

End ManagerMore.

(** ** What a successful construction leaves behind *)

Section Constructed.

Variable ext : Externals.

Lemma setup_cassandra_result self w self' w' :
  _setup_cassandra_connection ext self w = (Ok self', w') ->
  _connectionType self' = _connectionType self
  /\ exists cl s, _cluster self' = Some cl /\ _session self' = Some s.
Proof.
  unfold _setup_cassandra_connection, dict_pop, call, unpack_kwargs, read_dict.
  unfold_monad. intros H.
  repeat (case_match; simplify_eq/=; try done); eauto.
Qed.

Lemma setup_astra_result self w self' w' :
  _setup_astra_connection ext self w = (Ok self', w') ->
  _connectionType self' = _connectionType self
  /\ exists cl s, _cluster self' = Some cl /\ _session self' = Some s.
Proof.
  unfold _setup_astra_connection, connect_with_bundle, alloc, read_dict.
  unfold_monad. intros H.
  repeat (case_match; simplify_eq/=; try done);
    match goal with
    | H : _setup_cassandra_connection _ _ _ = (Ok _, _) |- _ =>
        by apply setup_cassandra_result in H
    end.
Qed.

(** The object that [CassandraConnector] returns is new, and it is a
    connector with its cluster and its session in place. *)
Lemma CassandraConnector_result kwargs w c w' :
  CassandraConnector ext kwargs w = (Ok c, w') ->
  heap w !! c = None
  /\ exists conn cl s,
       heap w' !! c = Some (OConnector conn)
       /\ _cluster conn = Some cl /\ _session conn = Some s
       /\ (_connectionType conn = "astra" \/ _connectionType conn = "cassandra").
Proof.
  unfold CassandraConnector. simpl.
  unfold mbind at 1, M_bind at 1, get_world at 1.
  unfold mbind at 1, M_bind at 1.
  set (setup := if truthy (heap w) (dict_get kwargs "astra") then _ else _).
  destruct (setup w) as [[self'|e] w2] eqn:Hsetup; [|discriminate].
  unfold alloc. intros [= <- <-]. simpl.
  assert (frame (cloud_record kwargs) w w2) as Hframe.
  { assert (steps (frame (cloud_record kwargs)) setup) as Hs; [|eapply Hs, Hsetup].
    subst setup. destruct (truthy _ _).
    - apply steps_setup_astra; try apply _.
      intros a Ha. simpl in Ha. rewrite Ha. apply _.
    - apply steps_setup_cassandra; apply _. }
  split.
  - destruct (heap w !! fresh (dom (heap w2))) as [o|] eqn:Ho; [|done].
    destruct (Hframe _ _ Ho) as (o' & Ho' & _).
    exfalso. eapply (is_fresh (dom (heap w2))), elem_of_dom. by eexists.
  - rewrite lookup_insert_eq. exists self'.
    subst setup. destruct (truthy _ _).
    + apply setup_astra_result in Hsetup as (Hty & cl & s & ? & ?).
      exists cl, s. split_and!; [done..|]. left. by rewrite Hty.
    + apply setup_cassandra_result in Hsetup as (Hty & cl & s & ? & ?).
      exists cl, s. split_and!; [done..|]. right. by rewrite Hty.
Qed.

(** X3. A call that has to construct and succeeds returns a new object of
    the store: a [CassandraConnector] whose cluster and session are both
    set and whose type is ["astra"] or ["cassandra"].  Read through the
    accessors right after the call, [connector.session] and
    [connector.cluster] give this session and this cluster. *)
Theorem get_connector_new_connector_ready m k args w c m' w' :
  _connections m !! k = None ->
  get_connector ext m k args w = (Ok c, m', w') ->
  heap w !! c = None
  /\ exists conn cl s,
       heap w' !! c = Some (OConnector conn)
       /\ _cluster conn = Some cl /\ _session conn = Some s
       /\ (_connectionType conn = "astra" \/ _connectionType conn = "cassandra")
       /\ session ext c w' = (Ok (Some s), w')
       /\ cluster c w' = (Ok (Some cl), w').
Proof.
  intros Hc. unfold get_connector. rewrite Hc.
  assert (forall l o, heap w !! l = Some o ->
            heap (store_params m k args w).2 !! l = Some o) as Hgrow.
  { intros l o Hl. unfold store_params, alloc. destruct (_ && _); [|done]. simpl.
    rewrite lookup_insert_ne; [done|]. intros <-.
    eapply (is_fresh (dom (heap w))), elem_of_dom. by eexists. }
  destruct (store_params m k args w) as [m1 w1]. simpl in Hgrow.
  destruct (_connection_params m1 !! k) as [p|]; [|discriminate].
  unfold construct. unfold mbind at 1, M_bind at 1.
  destruct (read_dict p w1) as [[kwargs|e] w1'] eqn:Hread.
  2: { intros [= ]. }
  assert (w1' = w1) as ->.
  { unfold read_dict in Hread. by repeat (case_match; simplify_eq). }
  destruct (CassandraConnector ext kwargs w1) as [[c0|e] w2] eqn:Hrun; [|discriminate].
  intros [= <- <- <-].
  apply CassandraConnector_result in Hrun as (Hnew & conn & cl & s & Hobj & Hcl & Hs & Hty).
  split.
  - destruct (heap w !! c0) as [o|] eqn:Ho; [|done].
    apply Hgrow in Ho. congruence.
  - exists conn, cl, s. split_and!; try done.
    + unfold session, session_fget, read_connector, print. unfold_monad. simpl.
      by rewrite Hobj, Hs.
    + unfold cluster, read_connector, print. unfold_monad. simpl.
      by rewrite Hobj, Hcl.
Qed.

(** X4. A call that brings arguments for a key that has neither connector
    nor parameters keeps them, as a new dictionary of the store holding
    exactly the arguments given, whether construction then succeeds or
    raises.  (The cloud sub-record, if the arguments name one, must be an
    object of the store.) *)
Theorem get_connector_keeps_new_arguments m k args w r m' w' :
  _connections m !! k = None ->
  _connection_params m !! k = None ->
  args <> ∅ ->
  (forall a, cloud_record args = Some a -> is_Some (heap w !! a)) ->
  get_connector ext m k args w = (r, m', w') ->
  exists p,
    heap w !! p = None
    /\ _connection_params m' !! k = Some p
    /\ heap w' !! p = Some (ODict args).
Proof.
  intros Hc Hp Hargs Hcloud. unfold get_connector. rewrite Hc.
  unfold store_params. rewrite Hp.
  rewrite bool_decide_eq_true_2, bool_decide_eq_false_2 by done. simpl.
  rewrite lookup_insert_eq.
  set (p := fresh (dom (heap w))).
  assert (heap w !! p = None) as Hfresh by apply not_elem_of_dom, is_fresh.
  set (w1 := mkWorld _ _ _).
  assert (heap w1 !! p = Some (ODict args)) as Hp1 by apply lookup_insert_eq.
  assert (cloud_record args <> Some p) as Hne.
  { intros Ha. destruct (Hcloud _ Ha) as [o Ho]. congruence. }
  destruct (construct ext p w1) as [[c|e] w2] eqn:Hrun;
    intros [= <- <- <-]; exists p; simpl; rewrite lookup_insert_eq;
    (split_and!; [done|done|]);
    by eapply construct_keeps_params.
Qed.

End Constructed.

(** ** More on bundle resolution *)

Global Instance same_fs_preorder : PreOrder same_fs.
Proof. split; [by intros w | intros w1 w2 w3; unfold same_fs; congruence]. Qed.
Global Instance same_fs_trace : AllowsTrace same_fs.
Proof. by intros w t. Qed.
Global Instance same_fs_alloc : AllowsAlloc same_fs.
Proof. by intros w l o _. Qed.
Global Instance same_fs_ids a : AllowsIds same_fs a.
Proof. by intros w d k v _ _. Qed.

Section BundleMore.

Variable ext : Externals.

(** X5. Neither a bundle path, nor an endpoint, nor a [datacenterID] (each
    absent, [None] or empty): bundle resolution raises the [ValueError] of
    line 250 and has done nothing by then. *)
Theorem missing_identifiers_are_rejected a d w :
  heap w !! a = Some (ODict d) ->
  has_truthy (heap w) d "scb" = false ->
  has_truthy (heap w) d "endpoint" = false ->
  has_truthy (heap w) d "datacenterID" = false ->
  _get_or_download_secure_connect_bundle ext a w
  = (Raise (Exn ValueError "Astra endpoint or datacenterID must be provided in args."), w).
Proof.
  intros Ha Hscb Hend Hid.
  rewrite (get_or_download_unfold _ _ _ _ Ha), Hscb.
  unfold resolve_identifiers. unfold_monad.
  rewrite (read_dict_at _ _ _ Ha), Hend.
  unfold has_truthy, dict_get in *.
  destruct (d !! "datacenterID") as [v|]; simpl.
  - by rewrite Hid.
  - done.
Qed.

Lemma after_identifiers_cache_file a w r w' :
  after_identifiers ext a w = (r, w') ->
  fs w' = fs w
  \/ exists p f url headers u,
       scb_cache_path ext a w = (Ok p, w)
       /\ fs w' = <[p := f]> (fs w)
       /\ trace w' = trace w ++ [EPost url headers; EGet u].
Proof.
  unfold after_identifiers. unfold mbind at 1, M_bind at 1.
  destruct (scb_cache_path ext a w) as [[p|e] wp] eqn:Hp;
    apply scb_cache_path_pure in Hp as ->; [|intros [= <- <-]; by left].
  unfold mbind at 1, M_bind at 1.
  destruct (must_download ext p w) as [[stale|e] wm] eqn:Hm;
    apply (steps_must_download ext eq) in Hm as <-; [|intros [= <- <-]; by left].
  destruct stale; [|unfold_monad; intros [= <- <-]; by left].
  unfold download_bundle, call, raise_for_status, write_file.
  unfold_monad.
  destruct (_get_secure_connect_bundle_url ext a w) as [[u|e] w2] eqn:Hurl.
  2: { apply (steps_bundle_url ext same_fs) in Hurl. intros [= <- <-]. by left. }
  apply bundle_url_requested in Hurl as (url & headers & ->).
  simpl. destruct (requests_get ext _ u) as [resp|e];
    [|intros [= <- <-]; by left].
  destruct (_ && _); simpl; intros [= <- <-]; [by left|].
  right. exists p. eexists. exists url, headers, u. simpl.
  split_and!; [done|done|]. by rewrite <- app_assoc.
Qed.

(** X6. Bundle resolution touches no file but the cache file.  After a
    run, whatever its outcome, either the filesystem is the one it
    started with, or the identifiers were resolved, both requests
    (discovery, then download) were made, and the filesystem differs
    from the old one at a single path: the cache path computed from the
    resolved identifiers. *)
Theorem resolution_writes_only_the_cache_file a w :
  let w' := (_get_or_download_secure_connect_bundle ext a w).2 in
  fs w' = fs w
  \/ exists w1 p f url headers u,
       resolve_identifiers ext a w = (Ok tt, w1)
       /\ scb_cache_path ext a w1 = (Ok p, w1)
       /\ fs w' = <[p := f]> (fs w)
       /\ trace w' = trace w ++ [EPost url headers; EGet u].
Proof.
  intros w'. subst w'.
  destruct (_get_or_download_secure_connect_bundle ext a w) as [r w'] eqn:Hrun.
  simpl.
  destruct (heap w !! a) as [[d|c]|] eqn:Ha.
  2,3: revert Hrun; unfold _get_or_download_secure_connect_bundle, read_dict;
       unfold_monad; rewrite Ha; intros [= <- <-]; by left.
  rewrite (get_or_download_unfold _ _ _ _ Ha) in Hrun.
  destruct (has_truthy (heap w) d "scb").
  { revert Hrun. unfold_monad. destruct (d !! "scb"); intros [= <- <-]; by left. }
  destruct (resolve_identifiers ext a w) as [r1 w1] eqn:Hres.
  pose proof (steps_resolve_identifiers ext quiet a _ _ _ Hres) as [Htr Hfs].
  destruct r1 as [[]|e]; [|revert Hrun; intros [= <- <-]; by left].
  apply after_identifiers_cache_file in Hrun
    as [Hsame|(p & f & url & headers & u & Hp & Hw & Ht)].
  - left. by rewrite Hsame.
  - right. exists w1, p, f, url, headers, u. by rewrite Hw, Ht, Hfs, Htr.
Qed.

End BundleMore.

(** ** What construction requests and forwards *)

Global Instance emits_preorder ok : PreOrder (emits ok).
Proof.
  split.
  - intros w. exists []. by rewrite app_nil_r.
  - intros w1 w2 w3 (e1 & H1 & F1) (e2 & H2 & F2). exists (e1 ++ e2).
    split; [by rewrite H2, H1, app_assoc | by apply Forall_app].
Qed.
Global Instance emits_fs ok : AllowsFs (emits ok).
Proof. intros w f. exists []. by rewrite app_nil_r. Qed.
Global Instance emits_alloc ok : AllowsAlloc (emits ok).
Proof. intros w l o _. exists []. by rewrite app_nil_r. Qed.
Global Instance emits_ids ok a : AllowsIds (emits ok) a.
Proof. intros w d k v _ _. exists []. by rewrite app_nil_r. Qed.
Global Instance emits_event ok : AllowsEvent (emits ok) ok.
Proof. intros w e He. exists [e]. split; [done|by constructor]. Qed.

Lemma steps_call_ok (P : relation World) ok `{!AllowsEvent P ok} {A} e
    (f : World -> result A) :
  ok e -> steps P (call e f).
Proof. intros He w r w' [= <- <-]. by apply allows_event. Qed.

#[global] Hint Resolve steps_select_download_url steps_connect_with_bundle : steps.

(** As [steps_go], for relations that look at each recorded event. *)
Ltac steps_ev :=
  repeat first
    [ progress steps_go
    | match goal with
      | |- steps _ (call _ _) => eapply steps_call_ok; [solve [apply _]|]
      end ].

Section Requests.

Variable ext : Externals.

Lemma rsplit1_none c s :
  PyStr.contains_char c s = false -> PyStr.rsplit1 c s = None.
Proof.
  induction s as [|a s IH]; [done|]. cbn [PyStr.contains_char PyStr.rsplit1].
  intros [Ha Hs]%orb_false_elim. by rewrite IH, Ha.
Qed.

Lemma rsplit1_last c m k :
  PyStr.contains_char c k = false ->
  PyStr.rsplit1 c (m +:+ String c k) = Some (m, k).
Proof.
  intros Hk. induction m as [|a m IH].
  - change (PyStr.rsplit1 c (String c k)
            = Some (EmptyString, k)). cbn [PyStr.rsplit1].
    by rewrite (rsplit1_none _ _ Hk), Ascii.eqb_refl.
  - change (String a m +:+ String c k) with (String a (m +:+ String c k)).
    cbn [PyStr.rsplit1]. by rewrite IH.
Qed.

(** The events of setting up the cluster, whatever the relation asks of
    them. *)
Lemma steps_setup_cassandra_events (P : relation World) ok
    `{!PreOrder P} `{!AllowsEvent P ok} self :
  (forall m c, ok (EImport m c)) ->
  (forall c k, ok (ENewAuthProvider c k)) ->
  (forall c, ok (EConnect c)) ->
  (forall a k, k !! "authProviderClass" = None -> k !! "authProviderArgs" = None ->
               ok (ECluster a k)) ->
  steps P (_setup_cassandra_connection ext self).
Proof.
  intros Himport Hnew Hconnect Hcluster.
  unfold _setup_cassandra_connection, dict_pop. steps_ev; auto.
  all: apply Hcluster;
    [ rewrite lookup_delete_ne by done; apply lookup_delete_eq
    | apply lookup_delete_eq ].
Qed.

Lemma not_http_setup self :
  steps (emits (fun e => ~ is_http e)) (_setup_cassandra_connection ext self).
Proof.
  apply (steps_setup_cassandra_events _ (fun e => ~ is_http e));
    repeat intro; simpl in *; done.
Qed.

Lemma same_fs_constructor_tail (m : M connector) :
  steps same_fs m -> steps same_fs (self ← m; alloc (OConnector self)).
Proof. intros Hm. steps_go. Qed.

(** X8. Direct mode (no [astra] entry, or one that is not a true value):
    construction makes no HTTP request, writes no file, and leaves every
    object of the store as it was. *)
Theorem direct_mode_stays_local kwargs w r w' :
  truthy (heap w) (dict_get kwargs "astra") = false ->
  CassandraConnector ext kwargs w = (r, w') ->
  fs w' = fs w
  /\ (forall l o, heap w !! l = Some o -> heap w' !! l = Some o)
  /\ exists evs, trace w' = trace w ++ evs /\ Forall (fun e => ~ is_http e) evs.
Proof.
  intros Hdirect. unfold CassandraConnector. simpl.
  unfold mbind at 1, M_bind at 1, get_world at 1. rewrite Hdirect.
  set (self := mkConnector _ _ _ _). intros Hrun.
  pose proof (not_http_setup self).
  pose proof (steps_setup_cassandra ext same_fs self).
  pose proof (steps_setup_cassandra ext (frame None) self).
  split_and!.
  - assert (steps same_fs (s ← _setup_cassandra_connection ext self;
                           alloc (OConnector s))) as Hs by steps_go.
    eapply Hs, Hrun.
  - assert (steps (frame None) (s ← _setup_cassandra_connection ext self;
                                alloc (OConnector s))) as Hs by steps_go.
    intros l o Hl. eapply frame_lookup; [eapply Hs, Hrun|done..].
  - assert (steps (emits (fun e => ~ is_http e))
              (s ← _setup_cassandra_connection ext self;
               alloc (OConnector s))) as Hs by steps_go.
    eapply Hs, Hrun.
Qed.

(** X10. [authProviderClass] and [authProviderArgs] are for this module only:
    in no mode, and on no path, does a [Cluster(...)] call receive either
    of them among its keyword arguments. *)
Theorem auth_keys_never_reach_the_driver kwargs w r w' :
  CassandraConnector ext kwargs w = (r, w') ->
  exists evs, trace w' = trace w ++ evs
              /\ Forall (fun e => ~ forwards_auth_keys e) evs.
Proof.
  assert (forall self, steps (emits (fun e => ~ forwards_auth_keys e))
                         (_setup_cassandra_connection ext self)) as Hsetup.
  { intros self.
    apply (steps_setup_cassandra_events _ (fun e => ~ forwards_auth_keys e));
      try (repeat intro; simpl in *; done).
    intros a k H1 H2 [[? ?]|[? ?]]; congruence. }
  assert (steps (emits (fun e => ~ forwards_auth_keys e))
            (CassandraConnector ext kwargs)) as Hs; [|intros Hrun; eapply Hs, Hrun].
  unfold CassandraConnector, _setup_astra_connection, connect_with_bundle.
  steps_ev; try (repeat intro; simpl in *; done).
Qed.

End Requests.

(** ** Cloud mode: with a bundle at hand, and without a token *)

Section CloudMode.

Variable ext : Externals.

Lemma get_or_download_explicit a d v w :
  heap w !! a = Some (ODict d) ->
  d !! "scb" = Some v ->
  truthy (heap w) v = true ->
  _get_or_download_secure_connect_bundle ext a w = (Ok v, w).
Proof.
  intros Ha Hscb Hv. rewrite (get_or_download_unfold _ _ _ _ Ha).
  unfold has_truthy. rewrite Hscb, Hv. unfold_monad. by rewrite Hscb.
Qed.

(** Construction in cloud mode: bundle resolution on the sub-record, then
    the connection made with the bundle. *)
Lemma CassandraConnector_cloud kwargs a d w :
  cloud_record kwargs = Some a ->
  heap w !! a = Some (ODict d) ->
  d <> ∅ ->
  CassandraConnector ext kwargs w
  = match _get_or_download_secure_connect_bundle ext a w with
    | (Ok scb_path, w1) =>
        (self ← connect_with_bundle ext (mkConnector kwargs "astra" None None) a scb_path;
         alloc (OConnector self)) w1
    | (Raise e, w1) => (Raise e, w1)
    end.
Proof.
  intros Hcloud Ha Hd. unfold cloud_record in Hcloud.
  destruct (kwargs !! "astra") as [[| | | |a0]|] eqn:Hastra; simplify_eq.
  unfold CassandraConnector. simpl.
  unfold mbind at 1, M_bind at 1, get_world at 1.
  unfold dict_get. rewrite Hastra. simpl. rewrite Ha.
  rewrite bool_decide_eq_false_2 by done. simpl.
  unfold mbind at 1, M_bind at 1.
  unfold _setup_astra_connection, getitem. simpl. rewrite Hastra.
  unfold mbind at 1, M_bind at 1, mret at 1, M_ret at 1.
  unfold mbind at 1, M_bind at 1.
  destruct (_get_or_download_secure_connect_bundle ext a w) as [[p|e] w1]; [|done].
  done.
Qed.

(** X9. A cloud sub-record that carries a bundle path: construction makes no
    HTTP request, writes no file, and does not write the sub-record. *)
Theorem explicit_bundle_construction_stays_local kwargs a d path w r w' :
  cloud_record kwargs = Some a ->
  heap w !! a = Some (ODict d) ->
  d !! "scb" = Some (VStr path) ->
  path <> EmptyString ->
  CassandraConnector ext kwargs w = (r, w') ->
  fs w' = fs w
  /\ heap w' !! a = Some (ODict d)
  /\ exists evs, trace w' = trace w ++ evs /\ Forall (fun e => ~ is_http e) evs.
Proof.
  intros Hcloud Ha Hscb Hne Hrun.
  assert (d <> ∅) as Hd by (intros ->; by rewrite lookup_empty in Hscb).
  assert (truthy (heap w) (VStr path) = true) as Hv
    by (simpl; by rewrite bool_decide_eq_false_2).
  split_and!.
  - rewrite (CassandraConnector_cloud _ _ _ _ Hcloud Ha Hd) in Hrun.
    rewrite (get_or_download_explicit _ _ _ _ Ha Hscb Hv) in Hrun.
    match type of Hrun with
    | ?m w = _ => assert (steps same_fs m) as Hs by steps_go
    end.
    eapply Hs, Hrun.
  - apply CassandraConnector_writes in Hrun as [_ Hsame].
    eapply Hsame; [done..|]. left. unfold has_truthy. by rewrite Hscb.
  - rewrite (CassandraConnector_cloud _ _ _ _ Hcloud Ha Hd) in Hrun.
    rewrite (get_or_download_explicit _ _ _ _ Ha Hscb Hv) in Hrun.
    pose proof (not_http_setup ext).
    match type of Hrun with
    | ?m w = _ =>
        assert (steps (emits (fun e => ~ is_http e)) m) as Hs
          by (unfold connect_with_bundle; steps_go)
    end.
    eapply Hs, Hrun.
Qed.

Lemma bundle_url_no_token a d w :
  heap w !! a = Some (ODict d) ->
  d !! "token" = None ->
  exists e, _get_secure_connect_bundle_url ext a w = (Raise e, w).
Proof.
  intros Ha Htok. unfold _get_secure_connect_bundle_url. unfold_monad.
  rewrite (read_dict_at _ _ _ Ha).
  destruct (default _ (d !! "bundleUrlTemplate")); eauto.
  destruct (d !! "datacenterID") as [[| | | |]|]; eauto.
  rewrite Htok. eauto.
Qed.

Lemma get_or_download_no_token a d w r w' :
  heap w !! a = Some (ODict d) ->
  d !! "token" = None ->
  _get_or_download_secure_connect_bundle ext a w = (r, w') ->
  trace w' = trace w /\ fs w' = fs w
  /\ exists d', heap w' !! a = Some (ODict d') /\ d' !! "token" = None.
Proof.
  intros Ha Htok. rewrite (get_or_download_unfold _ _ _ _ Ha).
  destruct (has_truthy (heap w) d "scb").
  { unfold_monad. destruct (d !! "scb"); intros [= <- <-]; eauto. }
  destruct (resolve_identifiers ext a w) as [r1 w1] eqn:Hres.
  assert (quiet w w1) as [Htr Hfs]
    by (eapply (steps_resolve_identifiers ext quiet a), Hres).
  assert (exists d', heap w1 !! a = Some (ODict d') /\ d' !! "token" = None)
    as (d' & Ha' & Htok').
  { apply (steps_resolve_identifiers ext (frame (Some a)) a) in Hres.
    destruct (Hres a _ Ha) as ([d'|c] & Ha' & _ & Hids); [|done].
    exists d'. split; [done|]. simpl in Hids. by rewrite Hids. }
  destruct r1 as [[]|e]; [|intros [= <- <-]; eauto 6].
  unfold after_identifiers. unfold mbind at 1, M_bind at 1.
  destruct (scb_cache_path ext a w1) as [[p|e] wp] eqn:Hp;
    apply scb_cache_path_pure in Hp as ->; [|intros [= <- <-]; eauto 6].
  unfold mbind at 1, M_bind at 1.
  destruct (must_download ext p w1) as [[stale|e] wm] eqn:Hm;
    apply (steps_must_download ext eq) in Hm as <-; [|intros [= <- <-]; eauto 6].
  destruct stale; [|unfold_monad; intros [= <- <-]; eauto 6].
  unfold download_bundle. unfold_monad.
  destruct (bundle_url_no_token _ _ _ Ha' Htok') as [e ->].
  intros [= <- <-]; eauto 6.
Qed.

(** X7. A cloud sub-record without a [token] entry: construction always
    raises, and by then nothing was requested, imported or connected and
    no file was written -- whether or not a bundle is at hand. *)
Theorem cloud_without_token_does_nothing kwargs a d w :
  cloud_record kwargs = Some a ->
  heap w !! a = Some (ODict d) ->
  d <> ∅ ->
  d !! "token" = None ->
  exists e w',
    CassandraConnector ext kwargs w = (Raise e, w')
    /\ trace w' = trace w /\ fs w' = fs w.
Proof.
  intros Hcloud Ha Hd Htok.
  rewrite (CassandraConnector_cloud _ _ _ _ Hcloud Ha Hd).
  destruct (_get_or_download_secure_connect_bundle ext a w) as [r w1] eqn:Hdl.
  apply (get_or_download_no_token _ _ _ _ _ Ha Htok) in Hdl
    as (Htr & Hfs & d' & Ha' & Htok').
  destruct r as [p|e]; [|eauto].
  unfold connect_with_bundle, alloc, read_dict. unfold_monad. simpl.
  rewrite lookup_insert_ne.
  2: { intros Heq. eapply (is_fresh (dom (heap w1))).
       rewrite Heq. apply elem_of_dom. by eexists. }
  rewrite Ha', Htok'. eauto.
Qed.

End CloudMode.

(** ** What construction writes in the cloud sub-record *)

Section Written.

Variable ext : Externals.

(** After construction the cloud sub-record is as bundle resolution left
    it: the connection made with the bundle writes new objects only. *)
Lemma CassandraConnector_record kwargs a d w r w' :
  cloud_record kwargs = Some a ->
  heap w !! a = Some (ODict d) ->
  d <> ∅ ->
  CassandraConnector ext kwargs w = (r, w') ->
  heap w' !! a = heap (_get_or_download_secure_connect_bundle ext a w).2 !! a.
Proof.
  intros Hcloud Ha Hd. rewrite (CassandraConnector_cloud _ _ _ _ _ Hcloud Ha Hd).
  destruct (_get_or_download_secure_connect_bundle ext a w) as [[scb_path|e] w1] eqn:Hdl;
    [|by intros [= <- <-]].
  simpl. intros Hrun.
  apply (steps_get_or_download ext (frame (Some a))) in Hdl; [|apply _].
  destruct (Hdl a _ Ha) as (o' & Ha1 & _).
  match type of Hrun with
  | ?m w1 = _ => assert (steps (frame None) m) as Hs by steps_go
  end.
  rewrite Ha1. eapply frame_lookup; [eapply Hs, Hrun|done|done].
Qed.

(** An endpoint that [urlparse] accepts: the two identifiers are
    written, whatever happens afterwards. *)
Lemma get_or_download_identifies a d e netloc w :
  heap w !! a = Some (ODict d) ->
  has_truthy (heap w) d "scb" = false ->
  d !! "endpoint" = Some (VStr e) ->
  e <> EmptyString ->
  urlparse_netloc ext e = Ok netloc ->
  heap (_get_or_download_secure_connect_bundle ext a w).2 !! a
  = Some (ODict (with_identifiers (heap w) d netloc)).
Proof.
  intros Ha Hscb He Hne Hnet.
  rewrite (get_or_download_unfold _ _ _ _ Ha), Hscb.
  rewrite (resolve_identifiers_endpoint _ _ _ _ _ _ Ha He Hne Hnet).
  match goal with
  | |- heap (after_identifiers ext a ?w1).2 !! a = _ =>
      destruct (after_identifiers ext a w1) as [r w2] eqn:Hrun;
      apply steps_after_identifiers in Hrun; unfold same_heap in Hrun
  end.
  simpl in *. rewrite Hrun. apply lookup_insert_eq.
Qed.

(** An endpoint that [urlparse] does not accept, because it raises or
    because the value is not a string: line 237 raises before anything
    is written. *)
Lemma get_or_download_unparsed a d v w :
  heap w !! a = Some (ODict d) ->
  d !! "endpoint" = Some v ->
  (forall e, v = VStr e -> exists x, urlparse_netloc ext e = Raise x) ->
  heap (_get_or_download_secure_connect_bundle ext a w).2 = heap w.
Proof.
  intros Ha Hv Hbad.
  destruct (_get_or_download_secure_connect_bundle ext a w) as [r w'] eqn:Hrun.
  simpl.
  destruct (has_truthy (heap w) d "endpoint") eqn:Hend.
  2: { eapply get_or_download_no_write; [done| |done]. by right. }
  revert Hrun. rewrite (get_or_download_unfold _ _ _ _ Ha).
  destruct (has_truthy (heap w) d "scb").
  { unfold_monad. destruct (d !! "scb"); by intros [= <- <-]. }
  assert (exists x, resolve_identifiers ext a w = (Raise x, w)) as [x ->].
  { unfold resolve_identifiers. unfold_monad.
    rewrite (read_dict_at _ _ _ Ha), Hend, Hv. simpl.
    destruct v as [| | |e|]; simpl; eauto.
    destruct (Hbad e eq_refl) as [x ->]. eauto. }
  by intros [= <- <-].
Qed.

(** C8 (amended). [CassandraConnector( **cfg)] for a configuration
    dictionary held in the store at [p]:
    - every object of the store is still there afterwards, and every
      object other than the cloud sub-record is unchanged; in
      particular the top-level dictionary ([authProviderClass] and
      [authProviderArgs] are popped from the connector's own copy);
    - the cloud sub-record changes at most in its [datacenterID] and
      [regionName] entries;
    - it does not change at all when it carries an explicit bundle path
      or no endpoint, nor when its endpoint is a string that [urlparse]
      refuses, nor when its endpoint is not a string;
    - and when it carries no bundle path and its endpoint is a non-empty
      string that [urlparse] accepts, answering the host [netloc], then
      after construction, whether it succeeded or not, the sub-record
      holds under [datacenterID] the value it had if that was a true
      value and otherwise the first five dash-separated pieces of the
      host before [.apps.astra.datastax.com], joined by dashes; under
      [regionName] the value it had if that was a true value and
      otherwise the remaining pieces joined by dashes; and under every
      other key what it had. *)
Theorem construction_writes_only_identifiers p cfg w r w' :
  heap w !! p = Some (ODict cfg) ->
  construct ext p w = (r, w') ->
  frame (cloud_record cfg) w w'
  /\ (cloud_record cfg <> Some p -> heap w' !! p = Some (ODict cfg))
  /\ (forall a d,
        cloud_record cfg = Some a ->
        heap w !! a = Some (ODict d) ->
        (exists d', heap w' !! a = Some (ODict d')
                    /\ forall k, k <> "datacenterID" -> k <> "regionName" ->
                                 d' !! k = d !! k)
        /\ (has_truthy (heap w) d "scb" = true
            \/ has_truthy (heap w) d "endpoint" = false ->
            heap w' !! a = Some (ODict d))
        /\ (forall e x,
              d !! "endpoint" = Some (VStr e) ->
              urlparse_netloc ext e = Raise x ->
              heap w' !! a = Some (ODict d))
        /\ (forall v,
              d !! "endpoint" = Some v ->
              (forall e, v <> VStr e) ->
              heap w' !! a = Some (ODict d))
        /\ (forall e netloc,
              has_truthy (heap w) d "scb" = false ->
              d !! "endpoint" = Some (VStr e) ->
              e <> EmptyString ->
              urlparse_netloc ext e = Ok netloc ->
              exists d',
                heap w' !! a = Some (ODict d')
                /\ d' !! "datacenterID"
                   = Some (if has_truthy (heap w) d "datacenterID"
                           then dict_get d "datacenterID"
                           else VStr (parse_netloc netloc).1)
                /\ d' !! "regionName"
                   = Some (if has_truthy (heap w) d "regionName"
                           then dict_get d "regionName"
                           else VStr (parse_netloc netloc).2)
                /\ forall k, k <> "datacenterID" -> k <> "regionName" ->
                             d' !! k = d !! k)).
Proof.
  intros Hp. unfold construct. unfold_monad. rewrite (read_dict_at _ _ _ Hp).
  intros Hrun. pose proof Hrun as [Hframe Hsame]%CassandraConnector_writes.
  split_and!; [done| |].
  - intros Hne. eapply frame_lookup; [done..|congruence].
  - intros a d Hcloud Ha.
    assert (forall v, d !! "endpoint" = Some v -> d <> ∅) as Hd
      by (intros v Hv ->; by rewrite lookup_empty in Hv).
    split_and!.
    + destruct (Hframe a _ Ha) as ([d'|c] & Ha' & _ & Hids); [|done].
      by exists d'.
    + by eapply Hsame.
    + intros e x He Hx.
      rewrite (CassandraConnector_record _ _ _ _ _ _ Hcloud Ha (Hd _ He) Hrun).
      rewrite (get_or_download_unparsed a d (VStr e) w Ha He); [done|].
      intros e' [= <-]. eauto.
    + intros v Hv Hns.
      rewrite (CassandraConnector_record _ _ _ _ _ _ Hcloud Ha (Hd _ Hv) Hrun).
      rewrite (get_or_download_unparsed a d v w Ha Hv); [done|].
      intros e ->. by destruct (Hns e).
    + intros e netloc Hscb He Hne Hnet.
      exists (with_identifiers (heap w) d netloc).
      rewrite (CassandraConnector_record _ _ _ _ _ _ Hcloud Ha (Hd _ He) Hrun).
      rewrite (get_or_download_identifies _ _ _ _ _ Ha Hscb He Hne Hnet).
      unfold with_identifiers, py_or, has_truthy, dict_get.
      split_and!; [done| | |].
      * rewrite lookup_insert_ne by done. rewrite lookup_insert_eq.
        f_equal. by destruct (d !! "datacenterID").
      * rewrite lookup_insert_eq. f_equal. by destruct (d !! "regionName").
      * intros k Hk1 Hk2. by rewrite !lookup_insert_ne.
Qed.

End Written.

(** ** Direct mode, step by step *)

Section DirectMode.

Variable ext : Externals.

(** X11. An [authProviderClass] without a dot cannot be split into module and
    class: construction raises the [ValueError] of the unpacking at line
    191, before anything is imported or connected. *)
Theorem auth_class_without_dot_is_rejected kwargs name w :
  truthy (heap w) (dict_get kwargs "astra") = false ->
  kwargs !! "authProviderClass" = Some (VStr name) ->
  name <> EmptyString ->
  PyStr.contains_char "." name = false ->
  CassandraConnector ext kwargs w
  = (Raise (Exn ValueError "not enough values to unpack (expected 2, got 1)"), w).
Proof.
  intros Hdirect Hclass Hne Hdot.
  unfold CassandraConnector, _setup_cassandra_connection, dict_pop. simpl.
  unfold_monad. rewrite Hdirect, Hclass. simpl.
  rewrite bool_decide_eq_false_2 by done. simpl.
  by rewrite (rsplit1_none _ _ Hdot).
Qed.

(** X12. Direct mode with an auth provider, when every collaborator answers:
    the class path is split at its last dot into module and class, the
    class is imported and called with the entries of [authProviderArgs],
    [Cluster] gets the provider and all the other arguments as they were
    given, one session is opened, and the new connector keeps exactly
    those other arguments. *)
Theorem direct_mode_connects kwargs module_path class_name pa provider_kwargs
    cls provider cl s w :
  let rest := delete "authProviderArgs" (delete "authProviderClass" kwargs) in
  let w1 := mkWorld (heap w) (fs w) (trace w ++ [EImport module_path class_name]) in
  let w2 := mkWorld (heap w) (fs w) (trace w1 ++ [ENewAuthProvider cls provider_kwargs]) in
  let w3 := mkWorld (heap w) (fs w) (trace w2 ++ [ECluster (Some provider) rest]) in
  let w4 := mkWorld (heap w) (fs w) (trace w3 ++ [EConnect cl]) in
  truthy (heap w) (dict_get kwargs "astra") = false ->
  kwargs !! "authProviderClass" = Some (VStr (module_path +:+ String "." class_name)) ->
  PyStr.contains_char "." class_name = false ->
  kwargs !! "authProviderArgs" = Some (VRef pa) ->
  heap w !! pa = Some (ODict provider_kwargs) ->
  kwargs !! "auth_provider" = None ->
  import_class ext w1 module_path class_name = Ok cls ->
  new_auth_provider ext w2 cls provider_kwargs = Ok provider ->
  Cluster ext w3 (Some provider) rest = Ok cl ->
  Cluster_connect ext w4 cl = Ok s ->
  CassandraConnector ext kwargs w
  = (Ok (fresh (dom (heap w))),
     mkWorld (<[fresh (dom (heap w)) :=
                  OConnector (mkConnector rest "cassandra" (Some cl) (Some s))]> (heap w))
             (fs w)
             (trace w ++ [EImport module_path class_name;
                          ENewAuthProvider cls provider_kwargs;
                          ECluster (Some provider) rest;
                          EConnect cl])).
Proof.
  intros rest w1 w2 w3 w4 Hdirect Hclass Hdot Hargs Hpa Hnone Himport Hnew Hcluster Hconnect.
  assert (rest !! "auth_provider" = None) as Hrest.
  { unfold rest. by rewrite !lookup_delete_ne. }
  subst w1 w2 w3 w4. cbn [heap fs trace] in *.
  unfold CassandraConnector, _setup_cassandra_connection, dict_pop, call,
    unpack_kwargs, read_dict, alloc. simpl.
  unfold_monad. rewrite Hdirect, Hclass. simpl.
  rewrite bool_decide_eq_false_2 by (by destruct module_path).
  simpl. rewrite (rsplit1_last _ _ _ Hdot). simpl.
  rewrite Himport.
  rewrite lookup_delete_ne by done. rewrite Hargs. cbn [heap]. rewrite Hpa. simpl.
  rewrite Hnew.
  fold rest. rewrite bool_decide_eq_false_2 by (rewrite Hrest; by intros [? ?]).
  simpl. rewrite Hcluster. simpl. rewrite Hconnect. simpl.
  do 2 f_equal. by rewrite <- !app_assoc.
Qed.

End DirectMode.

(** ** Cloud mode: what reaches the driver *)

Section CloudDriver.

Variable ext : Externals.

Lemma fresh_not_allocated (h : gmap loc obj) l o :
  h !! l = Some o -> fresh (dom h) <> l.
Proof.
  intros Hl Heq. eapply (is_fresh (dom h)). rewrite Heq.
  apply elem_of_dom. by eexists.
Qed.

(** The arguments made up for the driver in cloud mode, with the two
    auth entries popped. *)
Lemma cloud_arguments_popped (cloud auth_args : loc) :
  delete "authProviderArgs"
    (delete "authProviderClass"
       (<[ "cloud" := VRef cloud ]>
        (<[ "authProviderClass" := VStr "cassandra.auth.PlainTextAuthProvider" ]>
         ({[ "authProviderArgs" := VRef auth_args ]} : gmap string value))))
  = {[ "cloud" := VRef cloud ]}.
Proof.
  apply map_eq. intros k.
  destruct (decide (k = "authProviderArgs")) as [->|Hargs].
  { by rewrite lookup_delete_eq. }
  rewrite lookup_delete_ne by done.
  destruct (decide (k = "authProviderClass")) as [->|Hclass].
  { by rewrite lookup_delete_eq. }
  rewrite lookup_delete_ne by done.
  destruct (decide (k = "cloud")) as [->|Hcloud].
  { by rewrite lookup_insert_eq, lookup_singleton_eq. }
  rewrite !lookup_insert_ne by done.
  by rewrite !lookup_singleton_ne.
Qed.

(** X13. Cloud mode with a bundle at hand and a token: whenever construction
    succeeds, the driver was used in exactly this way -- the class
    [PlainTextAuthProvider] of the module [cassandra.auth] imported and
    called with the username ["token"] and the token as password, then
    [Cluster] called with this provider and the single option [cloud],
    a new dictionary that holds the bundle path under
    [secure_connect_bundle], then one [connect]. *)
Theorem cloud_mode_authenticates_with_token kwargs a d path tok w c w' :
  cloud_record kwargs = Some a ->
  heap w !! a = Some (ODict d) ->
  d !! "scb" = Some (VStr path) ->
  path <> EmptyString ->
  d !! "token" = Some tok ->
  CassandraConnector ext kwargs w = (Ok c, w') ->
  exists cls provider cl cloud,
    trace w' = trace w ++
      [ EImport "cassandra.auth" "PlainTextAuthProvider";
        ENewAuthProvider cls (<[ "username" := VStr "token" ]> {[ "password" := tok ]});
        ECluster (Some provider) {[ "cloud" := VRef cloud ]};
        EConnect cl ]
    /\ heap w !! cloud = None
    /\ heap w' !! cloud = Some (ODict {[ "secure_connect_bundle" := VStr path ]}).
Proof.
  intros Hcloud Ha Hscb Hne Htok Hrun.
  assert (d <> ∅) as Hd by (intros ->; by rewrite lookup_empty in Hscb).
  assert (truthy (heap w) (VStr path) = true) as Hv
    by (simpl; by rewrite bool_decide_eq_false_2).
  rewrite (CassandraConnector_cloud _ _ _ _ _ Hcloud Ha Hd) in Hrun.
  rewrite (get_or_download_explicit _ _ _ _ _ Ha Hscb Hv) in Hrun.
  revert Hrun.
  unfold connect_with_bundle, alloc, read_dict, _setup_cassandra_connection,
    dict_pop, call, unpack_kwargs, read_dict.
  unfold_monad. cbn [heap fs trace _connection_args _connectionType _cluster _session].
  set (l1 := fresh (dom (heap w))).
  assert (l1 <> a) as Hl1 by (by eapply fresh_not_allocated).
  rewrite lookup_insert_ne by done. rewrite Ha, Htok.
  cbn [heap fs trace _connection_args _connectionType _cluster _session].
  set (h1 := <[l1 := _]> (heap w)).
  set (l2 := fresh (dom h1)).
  assert (l2 <> l1) as Hl2.
  { eapply fresh_not_allocated. apply lookup_insert_eq. }
  rewrite cloud_arguments_popped.
  rewrite lookup_insert_ne by done. rewrite lookup_insert_eq.
  rewrite lookup_delete_ne by done.
  rewrite !lookup_insert_ne by done. rewrite lookup_singleton_eq.
  cbn [default from_option id truthy]. rewrite bool_decide_eq_false_2 by done.
  change (PyStr.rsplit1 "." "cassandra.auth.PlainTextAuthProvider")
    with (Some ("cassandra.auth", "PlainTextAuthProvider")).
  cbn [negb heap fs trace].
  set (h2 := <[l2 := _]> h1).
  destruct (import_class ext _ _ _) as [cls|e]; [|discriminate].
  unfold h2 at 1. rewrite lookup_insert_eq. cbn [heap fs trace].
  destruct (new_auth_provider ext _ _ _) as [provider|e]; [|discriminate].
  rewrite bool_decide_eq_false_2.
  2: { rewrite lookup_singleton_ne by done. by intros [? ?]. }
  cbn [heap fs trace].
  destruct (Cluster ext _ _ _) as [cl|e]; [|discriminate].
  cbn [heap fs trace].
  destruct (Cluster_connect ext _ _) as [s|e]; [|discriminate].
  cbn [heap fs trace]. intros [= <- <-]. cbn [heap fs trace].
  exists cls, provider, cl, l1. split_and!.
  - by rewrite <- !app_assoc.
  - apply not_elem_of_dom, is_fresh.
  - rewrite lookup_insert_ne.
    2: { eapply fresh_not_allocated. unfold h2. rewrite lookup_insert_ne by done.
         apply lookup_insert_eq. }
    unfold h2. rewrite lookup_insert_ne by done. apply lookup_insert_eq.
Qed.

End CloudDriver.

(** ** From the endpoint to the file *)

Section Scenario.

Variable ext : Externals.

Lemma parse_netloc_without_region (ids : list string) :
  ids <> [] ->
  (length ids <= 5)%nat ->
  Forall (fun x => PyStr.contains_char "-" x = false) ids ->
  Forall (fun x => PyStr.contains_char "." x = false) ids ->
  parse_netloc (PyStr.join "-" ids +:+ astra_suffix) = (PyStr.join "-" ids, EmptyString).
Proof.
  intros Hne Hlen Hdash Hdot. unfold parse_netloc.
  rewrite split_astra_suffix by (by apply contains_char_join).
  rewrite split_join_char by done.
  by rewrite take_ge, drop_ge by done.
Qed.

Lemma py_or_falsy h (d : gmap string value) k v :
  has_truthy h d k = false -> py_or h (dict_get d k) v = v.
Proof.
  unfold has_truthy, py_or, dict_get. destruct (d !! k); simpl; [by intros ->|done].
Qed.

Lemma with_identifiers_parsed h (d : gmap string value) netloc :
  has_truthy h d "datacenterID" = false ->
  has_truthy h d "regionName" = false ->
  with_identifiers h d netloc
  = <[ "regionName" := VStr (parse_netloc netloc).2 ]>
      (<[ "datacenterID" := VStr (parse_netloc netloc).1 ]> d).
Proof.
  intros Hid Hrn. unfold with_identifiers. by rewrite !py_or_falsy.
Qed.

Lemma default_url i :
  PyStr.replace "{database_id}" i default_bundle_url_template
  = "https://api.astra.datastax.com/v2/databases/" +:+ i +:+ "/secureBundleURL?all=true".
Proof.
  unfold PyStr.replace.
  change (PyStr.split "{database_id}" default_bundle_url_template)
    with ["https://api.astra.datastax.com/v2/databases/"; "/secureBundleURL?all=true"].
  reflexivity.
Qed.

Lemma status_accepted (resp : response) :
  ~ (400 <= status_code resp < 600) ->
  (400 <=? status_code resp) && (status_code resp <? 600) = false.
Proof.
  intros Hok. apply andb_false_iff.
  destruct (decide (400 <= status_code resp)).
  - right. apply Z.ltb_ge. lia.
  - left. apply Z.leb_gt. lia.
Qed.

Lemma select_first_without_region (d : gmap string value) first rest u w :
  has_truthy (heap w) d "regionName" = false ->
  first !! "downloadURL" = Some u ->
  select_download_url ext d (first :: rest) w = (Ok u, w).
Proof.
  intros Hno Hu. unfold select_download_url. unfold_monad.
  rewrite Hu. simpl. by rewrite Hno.
Qed.

Lemma select_region_found (d : gmap string value) r pre b post u w :
  Forall well_formed_entry (pre ++ b :: post) ->
  d !! "regionName" = Some (VStr r) -> r <> EmptyString ->
  Forall (fun b' => b' !! "region" <> Some r) pre ->
  b !! "region" = Some r ->
  b !! "downloadURL" = Some u ->
  select_download_url ext d (pre ++ b :: post) w = (Ok u, w).
Proof.
  intros Hwf Hr Hne Hpre Hb Hu.
  assert (has_truthy (heap w) d "regionName" = true) as Hyes.
  { unfold has_truthy. rewrite Hr. simpl. by rewrite bool_decide_eq_false_2. }
  pose proof Hwf as Hall. apply Forall_app in Hwf as [Hwfpre Hwfb].
  pose proof (next_regional_first pre b post r w Hwfpre Hpre Hb) as Hnext.
  unfold select_download_url.
  destruct (pre ++ b :: post) as [|first rest] eqn:Hdata; [by destruct pre|].
  apply Forall_cons in Hall as [[_ [u0 Hu0]] _].
  unfold_monad. rewrite Hu0. cbn -[next_regional]. rewrite Hyes, Hr.
  cbn -[next_regional]. rewrite Hnext.
  rewrite bool_decide_eq_false_2; [by rewrite Hu|].
  intros ->. by rewrite lookup_empty in Hb.
Qed.

(** X14. An endpoint whose host has at most five dash-separated segments (a
    bare database id, no region part) and a configuration that names no
    region: the region is left empty, so the cache file is named after
    the datacenter alone, and the first bundle of any discovery answer
    is the one selected. *)
Theorem endpoint_without_region a d e ids w :
  let w1 := (resolve_identifiers ext a w).2 in
  heap w !! a = Some (ODict d) ->
  d !! "endpoint" = Some (VStr e) ->
  e <> EmptyString ->
  urlparse_netloc ext e = Ok (PyStr.join "-" ids +:+ astra_suffix) ->
  ids <> [] ->
  (length ids <= 5)%nat ->
  Forall (fun x => PyStr.contains_char "-" x = false) ids ->
  Forall (fun x => PyStr.contains_char "." x = false) ids ->
  has_truthy (heap w) d "datacenterID" = false ->
  has_truthy (heap w) d "regionName" = false ->
  resolve_identifiers ext a w = (Ok tt, w1)
  /\ exists d1,
       heap w1 !! a = Some (ODict d1)
       /\ d1 !! "datacenterID" = Some (VStr (PyStr.join "-" ids))
       /\ d1 !! "regionName" = Some (VStr EmptyString)
       /\ scb_cache_path ext a w1
          = (Ok (PyStr.path_join (PyStr.path_join (gettempdir ext w1) "cassandra-astra")
                   (("astra-secure-connect-" +:+ PyStr.join "-" ids) +:+ ".zip")), w1)
       /\ forall first rest u,
            first !! "downloadURL" = Some u ->
            select_download_url ext d1 (first :: rest) w1 = (Ok u, w1).
Proof.
  intros w1 Ha He Hne Hnet Hids Hlen Hdash Hdot Hid Hrn.
  pose proof (resolve_identifiers_endpoint ext a d e _ w Ha He Hne Hnet) as Hres.
  rewrite (with_identifiers_parsed _ _ _ Hid Hrn) in Hres.
  rewrite (parse_netloc_without_region _ Hids Hlen Hdash Hdot) in Hres.
  simpl in Hres. subst w1. rewrite Hres. simpl.
  split; [done|]. eexists. rewrite lookup_insert_eq.
  split_and!; [done| | | |].
  - rewrite lookup_insert_ne by done. apply lookup_insert_eq.
  - apply lookup_insert_eq.
  - unfold scb_cache_path, makedirs, read_dict, format_value. unfold_monad. simpl.
    rewrite lookup_insert_eq.
    rewrite lookup_insert_ne by done. rewrite lookup_insert_eq. simpl.
    unfold has_truthy. by rewrite lookup_insert_eq.
  - intros first rest u Hu. apply select_first_without_region; [|done].
    unfold has_truthy. by rewrite lookup_insert_eq.
Qed.

(** X15. A cloud sub-record with an endpoint and a token only, a host of five
    id segments and a region, no cached file, and a service that
    answers: one discovery request goes to the default URL for the
    database id with the token as bearer, the URL of the first entry for
    the region of the endpoint is downloaded, its body is written to the
    cache file named after id and region, and that path is returned; the
    two identifiers are left in the sub-record. *)
Theorem endpoint_bundle_is_downloaded a d e ids regions tok resp data pre b post u
    resp2 w :
  let i := PyStr.join "-" ids in
  let r := PyStr.join "-" regions in
  let d1 := <[ "regionName" := VStr r ]> (<[ "datacenterID" := VStr i ]> d) in
  let h1 := <[a := ODict d1]> (heap w) in
  let w1 := mkWorld h1 (fs w) (trace w) in
  let p := PyStr.path_join (PyStr.path_join (gettempdir ext w1) "cassandra-astra")
             ((("astra-secure-connect-" +:+ i) +:+ "-" +:+ r) +:+ ".zip") in
  let url := "https://api.astra.datastax.com/v2/databases/" +:+ i
             +:+ "/secureBundleURL?all=true" in
  let headers := [("Authorization", "Bearer " +:+ tok);
                  ("Content-Type", "application/json")] in
  let w2 := mkWorld h1 (fs w) (trace w ++ [EPost url headers]) in
  let w3 := mkWorld h1 (fs w) ((trace w ++ [EPost url headers]) ++ [EGet u]) in
  heap w !! a = Some (ODict d) ->
  has_truthy (heap w) d "scb" = false ->
  d !! "endpoint" = Some (VStr e) ->
  e <> EmptyString ->
  urlparse_netloc ext e = Ok (PyStr.join "-" (ids ++ regions) +:+ astra_suffix) ->
  length ids = 5%nat ->
  r <> EmptyString ->
  Forall (fun x => PyStr.contains_char "-" x = false) (ids ++ regions) ->
  Forall (fun x => PyStr.contains_char "." x = false) (ids ++ regions) ->
  has_truthy (heap w) d "datacenterID" = false ->
  has_truthy (heap w) d "regionName" = false ->
  d !! "bundleUrlTemplate" = None ->
  d !! "token" = Some (VStr tok) ->
  fs w !! p = None ->
  requests_post ext w2 url headers = Ok resp ->
  ~ (400 <= status_code resp < 600) ->
  resp_json resp = Some data ->
  Forall well_formed_entry data ->
  data = pre ++ b :: post ->
  Forall (fun b' => b' !! "region" <> Some r) pre ->
  b !! "region" = Some r ->
  b !! "downloadURL" = Some u ->
  requests_get ext w3 u = Ok resp2 ->
  ~ (400 <= status_code resp2 < 600) ->
  _get_or_download_secure_connect_bundle ext a w
  = (Ok (VStr p),
     mkWorld h1 (<[p := mkFile (time_time ext w3) (resp_content resp2)]> (fs w))
             (trace w ++ [EPost url headers; EGet u])).
Proof.
  intros i r d1 h1 w1 p url headers w2 w3 Ha Hscb He Hne Hnet Hlen Hr Hdash Hdot
    Hid Hrn Htpl Htok Hfile Hpost Hok Hjson Hwf Hdata Hpre Hb Hu Hget Hok2.
  pose proof (resolve_identifiers_endpoint ext a d e _ w Ha He Hne Hnet) as Hres.
  rewrite (with_identifiers_parsed _ _ _ Hid Hrn) in Hres.
  rewrite (parse_netloc_segments _ _ Hlen Hdash Hdot) in Hres.
  simpl in Hres. fold i r d1 h1 w1 in Hres.
  rewrite (get_or_download_unfold _ _ _ _ Ha), Hscb, Hres.
  assert (heap w1 !! a = Some (ODict d1)) as Ha1 by apply lookup_insert_eq.
  assert (d1 !! "datacenterID" = Some (VStr i)) as Hi.
  { unfold d1. rewrite lookup_insert_ne by done. apply lookup_insert_eq. }
  assert (d1 !! "regionName" = Some (VStr r)) as Hr1 by apply lookup_insert_eq.
  assert (scb_cache_path ext a w1 = (Ok p, w1)) as Hp.
  { unfold scb_cache_path, makedirs, format_value. unfold_monad.
    rewrite (read_dict_at _ _ _ Ha1), Hi. simpl.
    unfold has_truthy. rewrite Hr1. simpl.
    by rewrite bool_decide_eq_false_2. }
  assert (_get_secure_connect_bundle_url ext a w1 = (Ok u, w2)) as Hurl.
  { unfold _get_secure_connect_bundle_url, call, raise_for_status, json, format_value.
    unfold_monad. rewrite (read_dict_at _ _ _ Ha1).
    unfold d1 at 1. rewrite !lookup_insert_ne by done. rewrite Htpl.
    cbn [default from_option id]. rewrite Hi.
    rewrite default_url. fold url.
    unfold d1 at 1. rewrite !lookup_insert_ne by done. rewrite Htok.
    unfold w1. cbn [shown heap fs trace]. fold headers. fold w2. rewrite Hpost.
    rewrite (status_accepted _ Hok), Hjson. rewrite Hdata.
    apply (select_region_found d1 r); try done. by rewrite <- Hdata. }
  unfold after_identifiers, download_bundle, must_download, call, raise_for_status,
    write_file.
  unfold_monad. rewrite Hp. unfold w1 at 1. cbn [fs]. rewrite Hfile, Hurl.
  unfold w2. cbn [heap fs trace]. fold w3. rewrite Hget.
  rewrite (status_accepted _ Hok2). cbn [heap fs trace].
  unfold w3 at 1 3 4. cbn [heap fs trace].
  do 2 f_equal. by rewrite <- app_assoc.
Qed.

End Scenario.

(** ** The cached bundle: used while fresh, replaced when not *)

Section Freshness.

Variable ext : Externals.

Lemma resolve_identifiers_identified a d d1 w :
  heap w !! a = Some (ODict d) ->
  identified ext (heap w) d d1 ->
  resolve_identifiers ext a w
  = (Ok tt, mkWorld (<[a := ODict d1]> (heap w)) (fs w) (trace w)).
Proof.
  intros Ha [(Hend & Hid & ->)|(e & netloc & He & Hne & Hnet & ->)].
  - rewrite insert_id by done.
    unfold resolve_identifiers. unfold_monad.
    rewrite (read_dict_at _ _ _ Ha), Hend.
    unfold has_truthy, dict_get in *.
    destruct (d !! "datacenterID") as [v|]; [|done]. simpl.
    rewrite Hid. simpl. by destruct w.
  - by apply (resolve_identifiers_endpoint ext a d e netloc w).
Qed.

(** The discovery request, written out: what is asked, and what becomes
    of each answer. *)
Lemma bundle_url_run a d1 tpl i tok w1 :
  heap w1 !! a = Some (ODict d1) ->
  default (VStr default_bundle_url_template) (d1 !! "bundleUrlTemplate") = VStr tpl ->
  d1 !! "datacenterID" = Some (VStr i) ->
  d1 !! "token" = Some tok ->
  let url := PyStr.replace "{database_id}" i tpl in
  let headers := [("Authorization", "Bearer " +:+ shown ext w1 tok);
                  ("Content-Type", "application/json")] in
  let w2 := mkWorld (heap w1) (fs w1) (trace w1 ++ [EPost url headers]) in
  _get_secure_connect_bundle_url ext a w1
  = match requests_post ext w2 url headers with
    | Ok resp =>
        if (400 <=? status_code resp) && (status_code resp <? 600)
        then (Raise (Exn HTTPError "HTTP error status"), w2)
        else match resp_json resp with
             | Some data => select_download_url ext d1 data w2
             | None => (Raise (Exn ValueError "response body is not JSON"), w2)
             end
    | Raise e => (Raise e, w2)
    end.
Proof.
  intros Ha1 Htpl Hi Htok url headers w2.
  unfold _get_secure_connect_bundle_url, call, raise_for_status, json, format_value.
  unfold_monad. rewrite (read_dict_at _ _ _ Ha1), Htpl, Hi, Htok.
  fold url. fold headers. fold w2.
  destruct (requests_post ext w2 url headers) as [resp|e]; [|done].
  destruct (_ && _); [done|]. by destruct (resp_json resp).
Qed.

Lemma select_designated d1 data u w :
  Forall well_formed_entry data ->
  designated (heap w) d1 data u ->
  select_download_url ext d1 data w = (Ok u, w).
Proof.
  intros Hwf [(Hno & first & rest & -> & Hu)
             |(r & pre & b & post & Hr & Hne & -> & Hpre & Hb & Hu)].
  - by apply select_first_without_region.
  - by apply (select_region_found ext d1 r).
Qed.

(** What follows a discovery that designated [u]: the download request,
    and the file written when it is answered. *)
Lemma download_run a p u w1 w2 :
  _get_secure_connect_bundle_url ext a w1 = (Ok u, w2) ->
  let w3 := mkWorld (heap w2) (fs w2) (trace w2 ++ [EGet u]) in
  download_bundle ext a p w1
  = match requests_get ext w3 u with
    | Ok resp =>
        if (400 <=? status_code resp) && (status_code resp <? 600)
        then (Raise (Exn HTTPError "HTTP error status"), w3)
        else (Ok tt, mkWorld (heap w3)
                       (<[p := mkFile (time_time ext w3) (resp_content resp)]> (fs w3))
                       (trace w3))
    | Raise e => (Raise e, w3)
    end.
Proof.
  intros Hurl w3.
  unfold download_bundle, call, raise_for_status, write_file. unfold_monad.
  rewrite Hurl. fold w3.
  destruct (requests_get ext w3 u) as [resp|e]; [|done].
  by destruct (_ && _).
Qed.

(** C5. Take a cloud configuration [d] without an explicit bundle path
    that gets past the identifiers, with [d1] the dictionary they leave
    and [p] the cache path computed from it.  Call the cache fresh when
    a file is at [p] and the clock is at most 360 days past its
    modification time.
    - Fresh: resolution returns [p]; nothing was requested and no file
      was written.
    - Not fresh (no file, or older than 360 days), for a configuration
      with a token, a string [datacenterID] and a string template (or
      none): the discovery request is made, to the template's URL for
      the [datacenterID] and with the token as bearer, whatever comes of
      it.  When the service answers with a well-formed list that holds
      the URL [u] for the configuration, the download request for [u]
      is made next, whatever comes of it; and when that is answered,
      resolution returns [p], the file at [p] holds the body of the
      answer, stamped with the time of writing, and no other file has
      changed.
    - Not fresh, for any configuration: whenever resolution returns at
      all, it returns [p], it has made a discovery request and then a
      download request, and the file at [p] holds what was downloaded. *)
Theorem cached_bundle_used_iff_fresh a d d1 w p :
  let h1 := <[a := ODict d1]> (heap w) in
  let w1 := mkWorld h1 (fs w) (trace w) in
  let run := _get_or_download_secure_connect_bundle ext a w in
  let fresh :=
    exists f, fs w !! p = Some f /\ time_time ext w1 - mtime f <= max_age in
  heap w !! a = Some (ODict d) ->
  has_truthy (heap w) d "scb" = false ->
  identified ext (heap w) d d1 ->
  (scb_cache_path ext a w1).1 = Ok p ->
  (fresh -> run = (Ok (VStr p), w1))
  /\ (~ fresh ->
      forall tpl i tok,
        default (VStr default_bundle_url_template) (d1 !! "bundleUrlTemplate") = VStr tpl ->
        d1 !! "datacenterID" = Some (VStr i) ->
        d1 !! "token" = Some tok ->
        let url := PyStr.replace "{database_id}" i tpl in
        let headers := [("Authorization", "Bearer " +:+ shown ext w1 tok);
                        ("Content-Type", "application/json")] in
        let w2 := mkWorld h1 (fs w) (trace w ++ [EPost url headers]) in
        (exists rest, trace run.2 = trace w ++ EPost url headers :: rest)
        /\ forall resp data u,
             requests_post ext w2 url headers = Ok resp ->
             ~ (400 <= status_code resp < 600) ->
             resp_json resp = Some data ->
             Forall well_formed_entry data ->
             designated h1 d1 data u ->
             let w3 := mkWorld h1 (fs w) ((trace w ++ [EPost url headers]) ++ [EGet u]) in
             trace run.2 = trace w ++ [EPost url headers; EGet u]
             /\ forall resp2,
                  requests_get ext w3 u = Ok resp2 ->
                  ~ (400 <= status_code resp2 < 600) ->
                  run = (Ok (VStr p),
                         mkWorld h1
                           (<[p := mkFile (time_time ext w3) (resp_content resp2)]> (fs w))
                           (trace w ++ [EPost url headers; EGet u])))
  /\ (~ fresh ->
      forall v w', run = (Ok v, w') ->
        v = VStr p
        /\ exists url headers u body t,
             trace w' = trace w ++ [EPost url headers; EGet u]
             /\ fs w' = <[p := mkFile t body]> (fs w)).
Proof.
  intros h1 w1 run fresh Ha Hscb Hid Hpath.
  pose proof (resolve_identifiers_identified a d d1 w Ha Hid) as Hres.
  fold h1 in Hres. fold w1 in Hres.
  assert (heap w1 !! a = Some (ODict d1)) as Ha1 by apply lookup_insert_eq.
  assert (scb_cache_path ext a w1 = (Ok p, w1)) as Hp.
  { destruct (scb_cache_path ext a w1) as [r w'] eqn:E.
    apply scb_cache_path_pure in E as ?. simpl in Hpath. by subst. }
  assert (run = after_identifiers ext a w1) as Hrun.
  { unfold run. by rewrite (get_or_download_unfold _ _ _ _ Ha), Hscb, Hres. }
  assert (~ fresh -> must_download ext p w1 = (Ok true, w1)) as Hmust.
  { intros Hstale. unfold must_download. cbn [fs w1].
    destruct (fs w !! p) as [f|] eqn:Hf; [|done].
    do 2 f_equal. rewrite Z.gtb_ltb. apply Z.ltb_lt.
    destruct (decide (time_time ext w1 - mtime f <= max_age)); [|lia].
    destruct Hstale. by exists f. }
  assert (~ fresh ->
          run = match download_bundle ext a p w1 with
                | (Ok _, w') => (Ok (VStr p), w')
                | (Raise e, w') => (Raise e, w')
                end) as Hdl.
  { intros Hstale. rewrite Hrun. unfold after_identifiers. unfold_monad.
    rewrite Hp, (Hmust Hstale).
    by destruct (download_bundle ext a p w1) as [[[]|e] w']. }
  split_and!.
  - intros (f & Hf & Hage). rewrite Hrun.
    unfold after_identifiers, must_download. unfold_monad.
    rewrite Hp. cbn [fs w1]. rewrite Hf. simpl.
    replace (time_time ext w1 - mtime f >? max_age) with false; [done|].
    symmetry. rewrite Z.gtb_ltb. apply Z.ltb_ge. lia.
  - intros Hstale tpl i tok Htpl Hi Htok url headers w2.
    pose proof (bundle_url_run a d1 tpl i tok w1 Ha1 Htpl Hi Htok) as Hurl.
    cbn zeta in Hurl. fold url headers in Hurl.
    change (mkWorld (heap w1) (fs w1) (trace w1 ++ [EPost url headers])) with w2 in Hurl.
    split.
    + rewrite (Hdl Hstale).
      destruct (_get_secure_connect_bundle_url ext a w1) as [[u|e] w2'] eqn:Hrun1.
      * assert (w2' = w2) as ->.
        { revert Hurl. destruct (requests_post ext w2 url headers) as [resp|e];
            [|done].
          destruct (_ && _); [done|]. destruct (resp_json resp) as [data|]; [|done].
          intros Hsel. symmetry in Hsel. by apply select_download_url_pure in Hsel. }
        rewrite (download_run a p u w1 w2 Hrun1). exists [EGet u].
        cbn [heap fs trace w2].
        destruct (requests_get ext _ u) as [resp2|e]; [|by rewrite <- app_assoc].
        destruct (_ && _); simpl; by rewrite <- app_assoc.
      * assert (w2' = w2) as ->.
        { revert Hurl. destruct (requests_post ext w2 url headers) as [resp|e0];
            [|by intros [= _ ->]].
          destruct (_ && _); [by intros [= _ ->]|].
          destruct (resp_json resp) as [data|]; [|by intros [= _ ->]].
          intros Hsel. symmetry in Hsel. by apply select_download_url_pure in Hsel. }
        exists []. unfold download_bundle. unfold_monad. by rewrite Hrun1.
    + intros resp data u Hpost Hok Hjson Hwf Hdes w3.
      rewrite Hpost, (status_accepted _ Hok), Hjson in Hurl.
      rewrite (select_designated d1 data u w2 Hwf Hdes) in Hurl.
      pose proof (download_run a p u w1 w2 Hurl) as Hget.
      cbn zeta in Hget.
      change (mkWorld (heap w2) (fs w2) (trace w2 ++ [EGet u])) with w3 in Hget.
      rewrite (Hdl Hstale), Hget. split.
      * destruct (requests_get ext w3 u) as [resp2|e]; [destruct (_ && _)|];
          unfold w3; cbn [snd heap fs trace]; by rewrite <- app_assoc.
      * intros resp2 Hget2 Hok2. rewrite Hget2, (status_accepted _ Hok2).
        unfold w3 at 1 3 4. cbn [heap fs trace]. by rewrite <- app_assoc.
  - intros Hstale v w'. rewrite (Hdl Hstale).
    destruct (download_bundle ext a p w1) as [[[]|e] w''] eqn:Hd; [|done].
    intros [= <- <-]. split; [done|].
    revert Hd. unfold download_bundle, call, raise_for_status, write_file.
    unfold_monad.
    destruct (_get_secure_connect_bundle_url ext a w1) as [[u|e] w2] eqn:Hurl;
      [|done].
    apply bundle_url_requested in Hurl as (url & headers & ->). simpl.
    destruct (requests_get ext _ u) as [resp|e]; [|done].
    destruct (_ && _); [done|]. simpl. intros [= <-].
    exists url, headers, u, (resp_content resp). eexists. simpl.
    by rewrite <- app_assoc.
Qed.

End Freshness.

(** ** The manager and the environment *)

Section Environment.

Variable getenv : string -> option string.
Variable json_loads : string -> M loc.

(** X16. A non-empty [CASSANDRA_CONNECTION] that [json.loads] refuses
    makes the construction of the manager itself fail, whatever the
    Astra variables say.  When the parser raises [JSONDecodeError], the
    error that leaves [__init__] is a [ValueError] whose message is the
    parser's after [Error parsing connection arguments: ]; when it
    raises anything else (a plain [ValueError] for an over-long number,
    a [RecursionError]), that exception leaves as it is, class and
    message.  In both cases the world is the one the parser left. *)
Theorem manager_init_rejects_malformed_json s e w w1 :
  getenv "CASSANDRA_CONNECTION" = Some s ->
  s <> EmptyString ->
  json_loads s w = (Raise e, w1) ->
  manager_init getenv json_loads w
  = (Raise match e with
           | Exn JSONDecodeError msg =>
               Exn ValueError ("Error parsing connection arguments: " +:+ msg)
           | _ => e
           end, w1).
Proof.
  intros Hs Hne Hjson.
  unfold manager_init, _parse_connection_args_json, getenv_value. unfold_monad.
  rewrite Hs. simpl. rewrite bool_decide_eq_false_2 by done. simpl.
  rewrite Hjson. by destruct e as [[] msg].
Qed.

(** X17. With an application token in the environment (and no direct-mode
    string), the new manager has parameters under [env_astra] only and
    no connector; the parameters are a new dictionary whose [astra]
    entry is a new sub-record holding the five Astra variables, [None]
    for the ones not set; nothing is requested or connected yet. *)
Theorem manager_init_registers_cloud_record tok w :
  getenv "CASSANDRA_CONNECTION" = None ->
  getenv "ASTRA_DB_APPLICATION_TOKEN" = Some tok ->
  tok <> EmptyString ->
  exists p a w',
    manager_init getenv json_loads w
    = (Ok (mkManager {[ "env_astra" := p ]} ∅), w')
    /\ heap w !! p = None /\ heap w !! a = None
    /\ heap w' !! p = Some (ODict {[ "astra" := VRef a ]})
    /\ heap w' !! a
       = Some (ODict (<[ "token" := VStr tok ]>
                      (<[ "endpoint" := getenv_value getenv "ASTRA_DB_API_ENDPOINT" ]>
                       (<[ "datacenterID" := getenv_value getenv "ASTRA_DB_DATABASE_ID" ]>
                        (<[ "regionName" := getenv_value getenv "ASTRA_DB_REGION" ]>
                         {[ "scb" := getenv_value getenv "ASTRA_DB_SECURE_BUNDLE_PATH" ]})))))
    /\ trace w' = trace w /\ fs w' = fs w.
Proof.
  intros Hc Ht Hne.
  assert (getenv_value getenv "CASSANDRA_CONNECTION" = VNone) as Hcv
    by (unfold getenv_value; by rewrite Hc).
  assert (getenv_value getenv "ASTRA_DB_APPLICATION_TOKEN" = VStr tok) as Htv
    by (unfold getenv_value; by rewrite Ht).
  unfold manager_init, alloc. rewrite Hcv, !Htv. unfold_monad.
  cbn [truthy heap fs trace].
  rewrite bool_decide_eq_false_2 by done. cbn [negb heap fs trace].
  set (a := fresh (dom (heap w))).
  set (h1 := <[a := _]> (heap w)).
  set (p := fresh (dom h1)).
  assert (heap w !! a = None) as Ha by apply not_elem_of_dom, is_fresh.
  assert (p <> a) as Hpa.
  { eapply fresh_not_allocated. apply lookup_insert_eq. }
  assert (heap w !! p = None) as Hp.
  { assert (h1 !! p = None) as Hh by apply not_elem_of_dom, is_fresh.
    unfold h1 in Hh. by rewrite lookup_insert_ne in Hh. }
  exists p, a. eexists. split_and!; [reflexivity|done|done| | |done|done].
  - cbn [heap]. apply lookup_insert_eq.
  - cbn [heap]. rewrite lookup_insert_ne by done. apply lookup_insert_eq.
Qed.

End Environment.

(** ** The theorems at work on concrete inputs *)

Lemma get_connector_returns_same_connection_witness :
  Demo.first_call = (Ok 1%nat, Demo.first_call.1.2, Demo.first_call.2)
  /\ get_connector (Demo.ext true) Demo.first_call.1.2 "k" Demo.other_args Demo.empty_world
     = (Ok 1%nat, Demo.first_call.1.2, Demo.empty_world).
Proof.
  assert (Demo.first_call = (Ok 1%nat, Demo.first_call.1.2, Demo.first_call.2)) as H
    by (vm_compute; reflexivity).
  split; [exact H|].
  apply (get_connector_returns_same_connection (Demo.ext true) _ _ _ _ _ _ _
           Demo.first_call.1.2 Demo.other_args Demo.empty_world H).
  apply later_refl.
Defined.

Lemma get_connector_not_configured_witness :
  _connections Demo.empty_manager !! "missing" = None
  /\ get_connector (Demo.ext true) Demo.empty_manager "missing" ∅ Demo.empty_world
     = (Raise (Exn ValueError "Connection parameters for 'missing' not configured."),
        Demo.empty_manager, Demo.empty_world).
Proof.
  split; [reflexivity|].
  apply (get_connector_not_configured (Demo.ext true) Demo.empty_manager "missing"
           Demo.empty_world); reflexivity.
Defined.

Lemma failed_construction_is_not_cached_witness :
  let m1 := (store_params Demo.empty_manager "k" Demo.direct_args Demo.empty_world).1 in
  let w1 := (store_params Demo.empty_manager "k" Demo.direct_args Demo.empty_world).2 in
  (_connections Demo.empty_manager !! "k" = None
   /\ _connection_params m1 !! "k" = Some 0%nat
   /\ construct (Demo.ext false) 0%nat w1
      = (Raise (Exn OtherError "NoHostAvailable"), (construct (Demo.ext false) 0%nat w1).2))
  /\ Demo.failed_call.1.1
     = Raise (Exn ValueError "Connection for 'k' could not be initialized.")
  /\ _connections Demo.failed_call.1.2 !! "k" = None
  /\ get_connector (Demo.ext true) m1 "k" Demo.other_args Demo.failed_call.2
     = (Ok 1%nat,
        (get_connector (Demo.ext true) m1 "k" ∅ Demo.failed_call.2).1.2,
        (get_connector (Demo.ext true) m1 "k" ∅ Demo.failed_call.2).2).
Proof.
  intros m1 w1.
  assert (_connections Demo.empty_manager !! "k" = None) as Hc by reflexivity.
  assert (store_params Demo.empty_manager "k" Demo.direct_args Demo.empty_world
          = (m1, w1)) as Hs by (vm_compute; reflexivity).
  assert (_connection_params m1 !! "k" = Some 0%nat) as Hp by (vm_compute; reflexivity).
  assert (construct (Demo.ext false) 0%nat w1
          = (Raise (Exn OtherError "NoHostAvailable"),
             (construct (Demo.ext false) 0%nat w1).2)) as Hrun
    by (vm_compute; reflexivity).
  split; [by split_and!|].
  destruct (failed_construction_is_not_cached (Demo.ext false) Demo.empty_manager "k"
              Demo.direct_args Demo.empty_world m1 w1 0%nat _ _ Hc Hs Hp Hrun)
    as (Hcall & Hnone & _).
  split_and!; [|exact Hnone|vm_compute; reflexivity].
  unfold Demo.failed_call. rewrite Hcall. reflexivity.
Defined.

Lemma discovery_well_formed : Forall well_formed_entry Demo.discovery.
Proof. repeat constructor; by eexists. Qed.

Lemma select_download_url_by_region_witness :
  Forall well_formed_entry Demo.discovery
  /\ select_download_url (Demo.ext true) {[ "regionName" := VStr "eu-west1" ]}
       Demo.discovery Demo.empty_world
     = (Ok "https://bundles/west.zip", Demo.empty_world)
  /\ select_download_url (Demo.ext true) {[ "regionName" := VStr "ap-south1" ]}
       Demo.discovery Demo.empty_world
     = (Raise (Exn ValueError "Specific bundle for region 'ap-south1' not found."),
        Demo.empty_world)
  /\ select_download_url (Demo.ext true) {[ "regionName" := VNone ]}
       Demo.discovery Demo.empty_world
     = (Ok "https://bundles/east.zip", Demo.empty_world).
Proof.
  split; [exact discovery_well_formed|]. split_and!.
  - destruct (select_download_url_by_region (Demo.ext true)
                {[ "regionName" := VStr "eu-west1" ]} Demo.discovery Demo.empty_world
                discovery_well_formed) as (_ & _ & H).
    destruct (H "eu-west1" eq_refl ltac:(discriminate)) as [Hfound _].
    apply (Hfound [_] _ [] _ eq_refl); [|reflexivity|reflexivity].
    repeat constructor. discriminate.
  - destruct (select_download_url_by_region (Demo.ext true)
                {[ "regionName" := VStr "ap-south1" ]} Demo.discovery Demo.empty_world
                discovery_well_formed) as (_ & _ & H).
    destruct (H "ap-south1" eq_refl ltac:(discriminate)) as [_ Hnone].
    apply Hnone; [discriminate|]. repeat constructor; discriminate.
  - destruct (select_download_url_by_region (Demo.ext true)
                {[ "regionName" := VNone ]} Demo.discovery Demo.empty_world
                discovery_well_formed) as (_ & H & _).
    apply (H _ _ _ eq_refl); reflexivity.
Defined.

Lemma endpoint_gives_identifiers_witness :
  urlparse_netloc (Demo.ext true) Demo.endpoint
  = Ok (PyStr.join "-" (["0a1b"; "2c3d"; "4e5f"; "6a7b"; "8c9d"] ++ ["eu"; "west1"])
        +:+ astra_suffix)
  /\ exists d',
       heap (_get_or_download_secure_connect_bundle (Demo.ext true) 0%nat
               Demo.cloud_world).2 !! 0%nat = Some (ODict d')
       /\ d' !! "datacenterID" = Some (VStr "0a1b-2c3d-4e5f-6a7b-8c9d")
       /\ d' !! "regionName" = Some (VStr "eu-west1").
Proof.
  assert (urlparse_netloc (Demo.ext true) Demo.endpoint
          = Ok (PyStr.join "-" (["0a1b"; "2c3d"; "4e5f"; "6a7b"; "8c9d"] ++ ["eu"; "west1"])
                +:+ astra_suffix)) as Hnet by (vm_compute; reflexivity).
  split; [exact Hnet|].
  destruct (endpoint_gives_identifiers (Demo.ext true) 0%nat Demo.cloud_dict
              Demo.endpoint ["0a1b"; "2c3d"; "4e5f"; "6a7b"; "8c9d"] ["eu"; "west1"]
              Demo.cloud_world)
    as (_ & d' & Hd' & Hdc & Hrn);
    [reflexivity | reflexivity | reflexivity | discriminate | exact Hnet | reflexivity
    | repeat constructor | repeat constructor |].
  exists d'. split_and!; [exact Hd' | exact Hdc | exact Hrn].
Defined.

Lemma cached_bundle_used_iff_fresh_witness :
  let run := _get_or_download_secure_connect_bundle (Demo.ext true) 0%nat in
  let d1 := <[ "regionName" := VStr "eu-west1" ]>
            (<[ "datacenterID" := VStr "0a1b-2c3d-4e5f-6a7b-8c9d" ]> Demo.cloud_dict) in
  let url := "https://api.astra.datastax.com/v2/databases/0a1b-2c3d-4e5f-6a7b-8c9d/secureBundleURL?all=true" in
  let headers := [("Authorization", "Bearer AstraCS:secret");
                  ("Content-Type", "application/json")] in
  run Demo.cached_world
  = (Ok (VStr Demo.bundle_path),
     mkWorld {[ 0%nat := ODict d1 ]} (fs Demo.cached_world) [])
  /\ run Cases.expired_world
     = (Ok (VStr Demo.bundle_path),
        mkWorld {[ 0%nat := ODict d1 ]}
                {[ Demo.bundle_path := mkFile 1700000000 "PK-bundle-bytes" ]}
                [EPost url headers; EGet "https://bundles/west.zip"]).
Proof.
  intros run d1 url headers.
  set (netloc := "0a1b-2c3d-4e5f-6a7b-8c9d-eu-west1.apps.astra.datastax.com").
  assert (forall h, identified (Demo.ext true) h Demo.cloud_dict
                      (with_identifiers h Demo.cloud_dict netloc)) as Hid.
  { intros h. right. exists Demo.endpoint, netloc.
    split_and!; [reflexivity | discriminate | vm_compute; reflexivity | reflexivity]. }
  split.
  - destruct (cached_bundle_used_iff_fresh (Demo.ext true) 0%nat Demo.cloud_dict
                (with_identifiers (heap Demo.cached_world) Demo.cloud_dict netloc)
                Demo.cached_world Demo.bundle_path eq_refl eq_refl (Hid _))
      as (Hfresh & _ & _); [vm_compute; reflexivity|].
    refine (eq_trans (Hfresh _) _); [|vm_compute; reflexivity].
    exists (mkFile (1700000000 - 100 * 86400) "PK-old").
    split; [vm_compute; reflexivity | vm_compute; discriminate].
  - destruct (cached_bundle_used_iff_fresh (Demo.ext true) 0%nat Demo.cloud_dict
                (with_identifiers (heap Cases.expired_world) Demo.cloud_dict netloc)
                Cases.expired_world Demo.bundle_path eq_refl eq_refl (Hid _))
      as (_ & Hstale & _); [vm_compute; reflexivity|].
    destruct (Hstale) with (tpl := default_bundle_url_template)
                           (i := "0a1b-2c3d-4e5f-6a7b-8c9d")
                           (tok := VStr "AstraCS:secret") as (_ & Hdisc);
      [ intros (f & Hf & Hage); vm_compute in Hf; injection Hf as <-;
        vm_compute in Hage; apply Hage; reflexivity
      | vm_compute; reflexivity | vm_compute; reflexivity | vm_compute; reflexivity |].
    destruct (Hdisc (mkResponse 200 (Some Demo.discovery) EmptyString) Demo.discovery
                "https://bundles/west.zip") as (_ & Hget);
      [ reflexivity | simpl; lia | reflexivity | exact discovery_well_formed | |].
    { right.
      exists "eu-west1",
        [ <[ "region" := "us-east1" ]> {[ "downloadURL" := "https://bundles/east.zip" ]} ],
        (<[ "region" := "eu-west1" ]> {[ "downloadURL" := "https://bundles/west.zip" ]}),
        [].
      split_and!; [vm_compute; reflexivity | discriminate | reflexivity
                  | repeat constructor; discriminate | reflexivity | reflexivity]. }
    refine (eq_trans (Hget (mkResponse 200 None "PK-bundle-bytes") eq_refl _) _);
      [simpl; lia | vm_compute; reflexivity].
Defined.

Lemma explicit_bundle_path_is_returned_witness :
  heap Demo.scb_world !! 0%nat = Some (ODict Demo.scb_dict)
  /\ _get_or_download_secure_connect_bundle (Demo.ext true) 0%nat Demo.scb_world
     = (Ok (VStr "/home/me/secure-connect.zip"), Demo.scb_world).
Proof.
  split; [reflexivity|].
  apply (explicit_bundle_path_is_returned (Demo.ext true) 0%nat Demo.scb_dict);
    [reflexivity | reflexivity | discriminate].
Defined.

Lemma session_property_returns_cached_witness :
  heap Demo.connector_world !! 0%nat = Some (OConnector Demo.a_connector)
  /\ session (Demo.ext true) 0%nat Demo.connector_world = (Ok (Some 7%nat), Demo.connector_world)
  /\ trace (session (Demo.ext true) 0%nat Demo.connector_world).2 = [].
Proof.
  split; [reflexivity|].
  apply (session_property_returns_cached (Demo.ext true) 0%nat Demo.a_connector
           Demo.connector_world). reflexivity.
Defined.

(** C8, as stated, fails: constructing a connector from a configuration
    whose cloud sub-record has an endpoint and no bundle path writes
    [datacenterID] and [regionName] into that sub-record of the caller. *)
Lemma construction_changes_cloud_record :
  heap Demo.astra_world !! 0%nat = Some (ODict Demo.cloud_dict)
  /\ heap (construct (Demo.ext true) 1%nat Demo.astra_world).2 !! 0%nat
     <> Some (ODict Demo.cloud_dict).
Proof.
  split; [reflexivity|]. intros H.
  apply (f_equal (fun o => match o with
                           | Some (ODict d) => d !! "datacenterID"
                           | _ => None
                           end)) in H.
  vm_compute in H. discriminate.
Qed.

Lemma construction_writes_only_identifiers_witness :
  let run := construct (Demo.ext true) 1%nat Demo.astra_world in
  let refused := construct Cases.refusing 1%nat Demo.astra_world in
  heap Demo.astra_world !! 1%nat = Some (ODict Demo.astra_cfg)
  /\ heap run.2 !! 1%nat = Some (ODict Demo.astra_cfg)
  /\ (exists d', heap run.2 !! 0%nat = Some (ODict d')
                 /\ d' !! "datacenterID" = Some (VStr "0a1b-2c3d-4e5f-6a7b-8c9d")
                 /\ d' !! "regionName" = Some (VStr "eu-west1")
                 /\ d' !! "token" = Some (VStr "AstraCS:secret")
                 /\ d' !! "endpoint" = Some (VStr Demo.endpoint))
  /\ heap refused.2 !! 0%nat = Some (ODict Demo.cloud_dict).
Proof.
  intros run refused. split; [reflexivity|].
  destruct (construction_writes_only_identifiers (Demo.ext true) 1%nat Demo.astra_cfg
              Demo.astra_world run.1 run.2 eq_refl)
    as (_ & Htop & Hsub); [apply surjective_pairing|].
  split; [apply Htop; intros H; vm_compute in H; discriminate|].
  split.
  - destruct (Hsub 0%nat Demo.cloud_dict eq_refl eq_refl) as (_ & _ & _ & _ & Hwritten).
    destruct (Hwritten Demo.endpoint
                "0a1b-2c3d-4e5f-6a7b-8c9d-eu-west1.apps.astra.datastax.com")
      as (d' & Hd' & Hdc & Hrn & Hsame);
      [reflexivity | reflexivity | discriminate | vm_compute; reflexivity |].
    exists d'. split; [exact Hd'|].
    split; [rewrite Hdc; vm_compute; reflexivity|].
    split; [rewrite Hrn; vm_compute; reflexivity|].
    split; rewrite Hsame; done.
  - destruct (construction_writes_only_identifiers Cases.refusing 1%nat Demo.astra_cfg
                Demo.astra_world refused.1 refused.2 eq_refl)
      as (_ & _ & Hsub'); [apply surjective_pairing|].
    destruct (Hsub' 0%nat Demo.cloud_dict eq_refl eq_refl) as (_ & _ & Hraise & _).
    apply (Hraise Demo.endpoint (Exn ValueError "Invalid IPv6 URL")); reflexivity.
Defined.

Lemma stored_parameters_win_witness :
  let m := Demo.failed_call.1.2 in
  let w := Demo.failed_call.2 in
  _connection_params m !! "k" = Some 0%nat
  /\ heap w !! 0%nat = Some (ODict Demo.direct_args)
  /\ get_connector (Demo.ext true) m "k" Demo.other_args w
     = get_connector (Demo.ext true) m "k" ∅ w
  /\ heap (get_connector (Demo.ext true) m "k" Demo.other_args w).2 !! 0%nat
     = Some (ODict Demo.direct_args)
  /\ exists c w',
       CassandraConnector (Demo.ext true) Demo.direct_args w = (Ok c, w')
       /\ get_connector (Demo.ext true) m "k" Demo.other_args w
          = (Ok c, mkManager (_connection_params m) (<[ "k" := c ]> (_connections m)),
             print "Connection for 'k' initialized successfully." w').
Proof.
  intros m w.
  assert (_connection_params m !! "k" = Some 0%nat) as Hp by (vm_compute; reflexivity).
  assert (heap w !! 0%nat = Some (ODict Demo.direct_args)) as Hcfg
    by (vm_compute; reflexivity).
  split; [exact Hp|]. split; [exact Hcfg|].
  destruct (stored_parameters_win (Demo.ext true) m "k" 0%nat m Demo.other_args
              w Hp (later_refl _ _)) as (Hsame & _ & _ & Hkeep & Hbuilt).
  split; [exact Hsame|].
  split; [apply Hkeep; [exact Hcfg | intros H; vm_compute in H; discriminate]|].
  destruct (CassandraConnector (Demo.ext true) Demo.direct_args w) as [[c|e] w'] eqn:Hrun;
    [|vm_compute in Hrun; discriminate].
  exists c, w'. split; [reflexivity|].
  rewrite (Hbuilt Demo.direct_args Hcfg); [|vm_compute; reflexivity].
  rewrite Hrun. reflexivity.
Defined.

(** ** The further properties on concrete cases *)

Lemma get_connector_touches_only_its_key_witness :
  _connections (get_connector (Demo.ext true) Demo.first_call.1.2 "other"
                  Demo.other_args Demo.first_call.2).1.2 !! "k" = Some 1%nat.
Proof.
  destruct (get_connector_touches_only_its_key (Demo.ext true) Demo.first_call.1.2
              "other" Demo.other_args Demo.first_call.2 "k") as [H _];
    [discriminate|].
  rewrite H. vm_compute. reflexivity.
Defined.

Lemma get_connector_new_connector_ready_witness :
  heap Demo.empty_world !! 1%nat = None
  /\ exists conn cl s,
       heap Demo.first_call.2 !! 1%nat = Some (OConnector conn)
       /\ _cluster conn = Some cl /\ _session conn = Some s
       /\ (_connectionType conn = "astra" \/ _connectionType conn = "cassandra")
       /\ session (Demo.ext true) 1%nat Demo.first_call.2
          = (Ok (Some s), Demo.first_call.2)
       /\ cluster 1%nat Demo.first_call.2 = (Ok (Some cl), Demo.first_call.2).
Proof.
  apply (get_connector_new_connector_ready (Demo.ext true) Demo.empty_manager "k"
           Demo.direct_args Demo.empty_world 1%nat Demo.first_call.1.2
           Demo.first_call.2); [reflexivity|].
  vm_compute. reflexivity.
Defined.

Lemma get_connector_keeps_new_arguments_witness :
  exists p,
    heap Demo.empty_world !! p = None
    /\ _connection_params Demo.failed_call.1.2 !! "k" = Some p
    /\ heap Demo.failed_call.2 !! p = Some (ODict Demo.direct_args).
Proof.
  apply (get_connector_keeps_new_arguments (Demo.ext false) Demo.empty_manager "k"
           Demo.direct_args Demo.empty_world Demo.failed_call.1.1);
    [reflexivity | reflexivity | | | vm_compute; reflexivity].
  - intros H. apply (f_equal (fun m => m !! "contact_points")) in H.
    vm_compute in H. discriminate.
  - intros a H. vm_compute in H. discriminate.
Defined.

Lemma missing_identifiers_are_rejected_witness :
  _get_or_download_secure_connect_bundle (Demo.ext true) 0%nat Cases.token_only_world
  = (Raise (Exn ValueError "Astra endpoint or datacenterID must be provided in args."),
     Cases.token_only_world).
Proof.
  apply (missing_identifiers_are_rejected (Demo.ext true) 0%nat Cases.token_only);
    reflexivity.
Defined.

Lemma resolution_writes_only_the_cache_file_witness :
  let run := _get_or_download_secure_connect_bundle (Demo.ext true) 0%nat in
  fs (run Demo.cloud_world).2
  = {[ Demo.bundle_path := mkFile 1700000000 "PK-bundle-bytes" ]}
  /\ fs (run Demo.cached_world).2 = fs Demo.cached_world
  /\ (fs (run Demo.cloud_world).2 = fs Demo.cloud_world
      \/ exists w1 p f url headers u,
           resolve_identifiers (Demo.ext true) 0%nat Demo.cloud_world = (Ok tt, w1)
           /\ scb_cache_path (Demo.ext true) 0%nat w1 = (Ok p, w1)
           /\ fs (run Demo.cloud_world).2 = <[p := f]> (fs Demo.cloud_world)
           /\ trace (run Demo.cloud_world).2
              = trace Demo.cloud_world ++ [EPost url headers; EGet u]).
Proof.
  intros run. split_and!; [vm_compute; reflexivity | vm_compute; reflexivity |].
  apply (resolution_writes_only_the_cache_file (Demo.ext true) 0%nat Demo.cloud_world).
Defined.

Lemma cloud_without_token_does_nothing_witness :
  exists e w',
    CassandraConnector (Demo.ext true) Demo.astra_cfg Cases.no_token_world = (Raise e, w')
    /\ trace w' = trace Cases.no_token_world /\ fs w' = fs Cases.no_token_world.
Proof.
  apply (cloud_without_token_does_nothing (Demo.ext true) Demo.astra_cfg 0%nat
           Cases.no_token); [reflexivity | reflexivity | | reflexivity].
  intros H. apply (f_equal (fun m => m !! "endpoint")) in H.
  vm_compute in H. discriminate.
Defined.

Lemma direct_mode_stays_local_witness :
  let run := CassandraConnector (Demo.ext true) Demo.direct_args Demo.empty_world in
  fs run.2 = fs Demo.empty_world
  /\ exists evs, trace run.2 = trace Demo.empty_world ++ evs
                 /\ Forall (fun e => ~ is_http e) evs.
Proof.
  intros run.
  destruct (direct_mode_stays_local (Demo.ext true) Demo.direct_args Demo.empty_world
              run.1 run.2) as (Hfs & _ & Hev);
    [reflexivity | apply surjective_pairing | by split].
Defined.

Lemma explicit_bundle_construction_stays_local_witness :
  let run := CassandraConnector (Demo.ext true) Demo.astra_cfg Demo.scb_world in
  fs run.2 = fs Demo.scb_world
  /\ heap run.2 !! 0%nat = Some (ODict Demo.scb_dict)
  /\ exists evs, trace run.2 = trace Demo.scb_world ++ evs
                 /\ Forall (fun e => ~ is_http e) evs.
Proof.
  intros run.
  apply (explicit_bundle_construction_stays_local (Demo.ext true) Demo.astra_cfg 0%nat
           Demo.scb_dict "/home/me/secure-connect.zip" Demo.scb_world run.1 run.2);
    [reflexivity | reflexivity | reflexivity | discriminate | apply surjective_pairing].
Defined.

Lemma auth_keys_never_reach_the_driver_witness :
  let run := CassandraConnector (Demo.ext true) Cases.auth_args Cases.auth_world in
  exists evs, trace run.2 = trace Cases.auth_world ++ evs
              /\ Forall (fun e => ~ forwards_auth_keys e) evs.
Proof.
  intros run.
  apply (auth_keys_never_reach_the_driver (Demo.ext true) Cases.auth_args
           Cases.auth_world run.1 run.2).
  apply surjective_pairing.
Defined.

Lemma auth_class_without_dot_is_rejected_witness :
  CassandraConnector (Demo.ext true) Cases.dotless_args Demo.empty_world
  = (Raise (Exn ValueError "not enough values to unpack (expected 2, got 1)"),
     Demo.empty_world).
Proof.
  apply (auth_class_without_dot_is_rejected (Demo.ext true) Cases.dotless_args
           "PlainTextAuthProvider");
    [reflexivity | reflexivity | discriminate | reflexivity].
Defined.

Lemma direct_mode_connects_witness :
  (CassandraConnector (Demo.ext true) Cases.auth_args Cases.auth_world).1 = Ok 1%nat
  /\ trace (CassandraConnector (Demo.ext true) Cases.auth_args Cases.auth_world).2
     = [ EImport "cassandra.auth" "PlainTextAuthProvider";
         ENewAuthProvider 1%nat Cases.credentials;
         ECluster (Some 2%nat) {[ "contact_points" := VStr "127.0.0.1" ]};
         EConnect 3%nat ].
Proof.
  rewrite (direct_mode_connects (Demo.ext true) Cases.auth_args "cassandra.auth"
             "PlainTextAuthProvider" 0%nat Cases.credentials 1%nat 2%nat 3%nat 4%nat
             Cases.auth_world);
    try reflexivity.
  split; vm_compute; reflexivity.
Defined.

Lemma cloud_mode_authenticates_with_token_witness :
  let run := CassandraConnector (Demo.ext true) Demo.astra_cfg Demo.scb_world in
  run.1 = Ok 3%nat
  /\ exists cls provider cl cloud,
       trace run.2 = trace Demo.scb_world ++
         [ EImport "cassandra.auth" "PlainTextAuthProvider";
           ENewAuthProvider cls
             (<[ "username" := VStr "token" ]> {[ "password" := VStr "AstraCS:secret" ]});
           ECluster (Some provider) {[ "cloud" := VRef cloud ]};
           EConnect cl ]
       /\ heap Demo.scb_world !! cloud = None
       /\ heap run.2 !! cloud
          = Some (ODict {[ "secure_connect_bundle" := VStr "/home/me/secure-connect.zip" ]}).
Proof.
  intros run.
  assert (run = (Ok 3%nat, run.2)) as Hrun by (vm_compute; reflexivity).
  split; [by rewrite Hrun|].
  apply (cloud_mode_authenticates_with_token (Demo.ext true) Demo.astra_cfg 0%nat
           Demo.scb_dict "/home/me/secure-connect.zip" (VStr "AstraCS:secret")
           Demo.scb_world 3%nat run.2);
    [reflexivity | reflexivity | reflexivity | discriminate | reflexivity | exact Hrun].
Defined.

Lemma endpoint_without_region_witness :
  let w1 := (resolve_identifiers (Demo.ext true) 0%nat Cases.bare_world).2 in
  resolve_identifiers (Demo.ext true) 0%nat Cases.bare_world = (Ok tt, w1)
  /\ exists d1,
       heap w1 !! 0%nat = Some (ODict d1)
       /\ d1 !! "datacenterID" = Some (VStr (PyStr.join "-" ["0a1b"; "2c3d"; "4e5f"; "6a7b"; "8c9d"]))
       /\ d1 !! "regionName" = Some (VStr EmptyString)
       /\ scb_cache_path (Demo.ext true) 0%nat w1
          = (Ok (PyStr.path_join (PyStr.path_join (gettempdir (Demo.ext true) w1)
                                    "cassandra-astra")
                   (("astra-secure-connect-"
                     +:+ PyStr.join "-" ["0a1b"; "2c3d"; "4e5f"; "6a7b"; "8c9d"])
                    +:+ ".zip")), w1)
       /\ forall first rest u,
            first !! "downloadURL" = Some u ->
            select_download_url (Demo.ext true) d1 (first :: rest) w1 = (Ok u, w1).
Proof.
  apply (endpoint_without_region (Demo.ext true) 0%nat Cases.bare Cases.bare_endpoint
           ["0a1b"; "2c3d"; "4e5f"; "6a7b"; "8c9d"] Cases.bare_world);
    [ reflexivity | reflexivity | discriminate | vm_compute; reflexivity | discriminate
    | simpl; lia | repeat constructor | repeat constructor | reflexivity | reflexivity ].
Defined.

Lemma endpoint_bundle_is_downloaded_witness :
  (_get_or_download_secure_connect_bundle (Demo.ext true) 0%nat Demo.cloud_world).1
  = Ok (VStr Demo.bundle_path)
  /\ trace (_get_or_download_secure_connect_bundle (Demo.ext true) 0%nat
              Demo.cloud_world).2
     = [ EPost "https://api.astra.datastax.com/v2/databases/0a1b-2c3d-4e5f-6a7b-8c9d/secureBundleURL?all=true"
               [("Authorization", "Bearer AstraCS:secret");
                ("Content-Type", "application/json")];
         EGet "https://bundles/west.zip" ]
  /\ fs (_get_or_download_secure_connect_bundle (Demo.ext true) 0%nat
           Demo.cloud_world).2 !! Demo.bundle_path
     = Some (mkFile 1700000000 "PK-bundle-bytes").
Proof.
  rewrite (endpoint_bundle_is_downloaded (Demo.ext true) 0%nat Demo.cloud_dict
             Demo.endpoint ["0a1b"; "2c3d"; "4e5f"; "6a7b"; "8c9d"] ["eu"; "west1"]
             "AstraCS:secret" (mkResponse 200 (Some Demo.discovery) EmptyString)
             Demo.discovery
             [ <[ "region" := "us-east1" ]> {[ "downloadURL" := "https://bundles/east.zip" ]} ]
             (<[ "region" := "eu-west1" ]> {[ "downloadURL" := "https://bundles/west.zip" ]})
             [] "https://bundles/west.zip" (mkResponse 200 None "PK-bundle-bytes")
             Demo.cloud_world);
    [ split_and!; vm_compute; reflexivity
    | reflexivity | reflexivity | reflexivity | discriminate | vm_compute; reflexivity
    | reflexivity | discriminate | repeat constructor | repeat constructor
    | reflexivity | reflexivity | reflexivity | reflexivity | reflexivity | reflexivity
    | simpl; lia | reflexivity | exact discovery_well_formed | reflexivity
    | repeat constructor; discriminate | reflexivity | reflexivity | reflexivity
    | simpl; lia ].
Defined.

Lemma manager_init_rejects_malformed_json_witness :
  manager_init Cases.getenv_broken Cases.json_refuses Demo.empty_world
  = (Raise (Exn ValueError
       ("Error parsing connection arguments: "
        +:+ "Expecting property name enclosed in double quotes")),
     Demo.empty_world)
  /\ manager_init Cases.getenv_broken Cases.json_too_deep Demo.empty_world
     = (Raise (Exn OtherError "maximum recursion depth exceeded"), Demo.empty_world).
Proof.
  split.
  - apply (manager_init_rejects_malformed_json Cases.getenv_broken Cases.json_refuses
             "{contact_points"
             (Exn JSONDecodeError "Expecting property name enclosed in double quotes")
             Demo.empty_world Demo.empty_world);
      [reflexivity | discriminate | reflexivity].
  - apply (manager_init_rejects_malformed_json Cases.getenv_broken Cases.json_too_deep
             "{contact_points" (Exn OtherError "maximum recursion depth exceeded")
             Demo.empty_world Demo.empty_world);
      [reflexivity | discriminate | reflexivity].
Defined.

Lemma manager_init_registers_cloud_record_witness :
  exists p a w',
    manager_init Cases.getenv_astra Cases.json_refuses Demo.empty_world
    = (Ok (mkManager {[ "env_astra" := p ]} ∅), w')
    /\ heap Demo.empty_world !! p = None /\ heap Demo.empty_world !! a = None
    /\ heap w' !! p = Some (ODict {[ "astra" := VRef a ]})
    /\ heap w' !! a
       = Some (ODict (<[ "token" := VStr "AstraCS:secret" ]>
                      (<[ "endpoint" := getenv_value Cases.getenv_astra "ASTRA_DB_API_ENDPOINT" ]>
                       (<[ "datacenterID" := getenv_value Cases.getenv_astra "ASTRA_DB_DATABASE_ID" ]>
                        (<[ "regionName" := getenv_value Cases.getenv_astra "ASTRA_DB_REGION" ]>
                         {[ "scb" := getenv_value Cases.getenv_astra
                                       "ASTRA_DB_SECURE_BUNDLE_PATH" ]})))))
    /\ trace w' = trace Demo.empty_world /\ fs w' = fs Demo.empty_world.
Proof.
  apply (manager_init_registers_cloud_record Cases.getenv_astra Cases.json_refuses
           "AstraCS:secret" Demo.empty_world);
    [reflexivity | reflexivity | discriminate].
Defined.

